(** * Gastric-cancer three-year survival predictor: feature alignment,
      prediction dispatch and attribution dispatch

    A shallow embedding of the Streamlit script [程序APP3.py].  The script is
    a straight-line program over a page it renders into; the classifier
    ([rf.pkl]), the SHAP engine and the input widgets are external and appear
    here as fields of records that the script is run against.

    Conventions:
    - a Python [float] is a binary64 [float] of the kernel, with the
      comparisons and arithmetic of IEEE 754;
    - a Python [dict] is an association list in insertion order, whose keys
      are kept distinct by [dict_set];
    - a statement that can raise, or call [st.stop()], is a [Script]: a
      function of the page rendered so far, returning an outcome and the page
      after it. *)

From Stdlib Require Import Floats ZArith List String Bool Lia Permutation.
Import ListNotations.

Set Warnings "-inexact-float".

#[local] Open Scope string_scope.
#[local] Open Scope list_scope.

(** ** Python values *)

(** The values the widgets hand to the script: a slider returns a [float], a
    radio button returns the option chosen, an [int]. *)
Inductive pyval : Type :=
| PyInt (z : Z)
| PyFloat (x : float).

(** [float(z)] for an [int] (exact below 2^53, which covers the registry). *)
Definition float_of_Z (z : Z) : float :=
  match z with
  | Z0 => 0%float
  | Zpos _ => PrimFloat.of_uint63 (Uint63.of_Z z)
  | Zneg p => PrimFloat.opp (PrimFloat.of_uint63 (Uint63.of_Z (Zpos p)))
  end.

(** [float(v)] *)
Definition to_float (v : pyval) : float :=
  match v with
  | PyInt z => float_of_Z z
  | PyFloat x => x
  end.

(** ** Dictionaries (insertion ordered) *)

(** [dict V]: the items of a dictionary with values in [V], oldest first. *)
Abbreviation dict V := (list (string * V)%type).

Section Dict.
Context {V : Type}.

(** [list(d.keys())] *)
Definition dict_keys (d : dict V) : list string := map fst d.

(** [d.get(k)]; [d[k]] raises [KeyError] where this is [None]. *)
Fixpoint dict_get (k : string) (d : dict V) : option V :=
  match d with
  | [] => None
  | (k', v) :: d' => if String.eqb k k' then Some v else dict_get k d'
  end.

(** [k in d] *)
Definition dict_mem (k : string) (d : dict V) : bool :=
  match dict_get k d with Some _ => true | None => false end.

(** [d[k] = v]: an existing key keeps its position, a new key goes last. *)
Fixpoint dict_set (k : string) (v : V) (d : dict V) : dict V :=
  match d with
  | [] => [(k, v)]
  | (k', v') :: d' =>
      if String.eqb k k' then (k', v) :: d' else (k', v') :: dict_set k v d'
  end.
End Dict.

(** [x in l] for a list (or array) of names *)
Definition name_in (x : string) (l : list string) : bool :=
  existsb (String.eqb x) l.

(** ** Risk tier (lines 389-397) *)

Inductive risk : Type :=
| LowRisk        (* "低风险", green *)
| ModerateRisk   (* "中等风险", orange *)
| HighRisk.      (* "高风险", red *)

(** [dp > 30] is [30 < dp]. *)
Definition risk_category (death_probability : float) : risk :=
  if ((30 <? death_probability) && (death_probability <=? 70))%float
  then ModerateRisk
  else if (70 <? death_probability)%float then HighRisk
  else LowRisk.

(** ** Exceptions and external calls *)

(** What [except Exception] can catch.  [KeyError] and [IndexError] are the
    two the script itself can raise; [Error] stands for any other exception,
    by its message [str(e)]. *)
Inductive Exception : Type :=
| KeyError (key : string)
| IndexError
| Error (message : string).

(** The result of a call that can raise. *)
Inductive result (A : Type) : Type :=
| Returns (a : A)
| Raises (e : Exception).

Arguments Returns {A} a.
Arguments Raises {A} e.

(** [l[i]] on a sequence *)
Definition getitem {A : Type} (l : list A) (i : nat) : result A :=
  match nth_error l i with
  | Some x => Returns x
  | None => Raises IndexError
  end.

(** ** Arrays of the attribution engine *)

(** A numpy array of floats: its shape and its elements in row-major order. *)
Record ndarray : Type := { shape : list nat; data : list float }.

Definition ndim (a : ndarray) : nat := List.length (shape a).

(** Number of elements of an array of the given shape. *)
Definition size_of (dims : list nat) : nat := fold_right Nat.mul 1 dims.

Definition slice (start len : nat) (l : list float) : list float :=
  firstn len (skipn start l).

(** [a[0]]: the first block along the first axis. *)
Definition ndarray_0 (a : ndarray) : result ndarray :=
  match shape a with
  | [] => Raises IndexError
  | n :: rest =>
      if (n =? 0)%nat then Raises IndexError
      else Returns {| shape := rest; data := slice 0 (size_of rest) (data a) |}
  end.

(** [a[0, :, 1]]: index 0 on the first axis, everything on the second,
    index 1 on the third. *)
Definition ndarray_0_all_1 (a : ndarray) : result ndarray :=
  match shape a with
  | n :: f :: c :: rest =>
      if ((n =? 0) || (c <=? 1))%nat then Raises IndexError
      else Returns
             {| shape := f :: rest;
                data := flat_map
                          (fun j => slice ((j * c + 1) * size_of rest)
                                          (size_of rest) (data a))
                          (seq 0 f) |}
  | _ => Raises IndexError
  end.

(** What [explainer(features_df)] returns: a [shap.Explanation], which always
    has [values]; indexing it indexes [values]. *)
Record Explanation : Type := { values : ndarray }.

Definition explanation_of (r : result ndarray) : result Explanation :=
  match r with
  | Returns a => Returns {| values := a |}
  | Raises e => Raises e
  end.

(** ** Data frames of one row *)

(** [pd.DataFrame([feature_values])]: one row, columns in the key order of
    the dictionary. *)
Definition DataFrame : Type := list (string * pyval).

Definition DataFrame_of_row (row : dict pyval) : DataFrame := row.

Definition columns (df : DataFrame) : list string := map fst df.

(** [df[names]]: the named columns, in the order of [names]. *)
Fixpoint select (names : list string) (df : DataFrame) : result DataFrame :=
  match names with
  | [] => Returns []
  | f :: names' =>
      match dict_get f df with
      | None => Raises (KeyError f)
      | Some v =>
          match select names' df with
          | Returns r => Returns ((f, v) :: r)
          | Raises e => Raises e
          end
      end
  end.

(** [df.values]: a two-dimensional array with the one row, the values in
    column order.  pandas gives the array one dtype (the ints of the radio
    buttons become floats beside a slider's float); that conversion is not
    modelled, and no statement below depends on the dtype. *)
Definition df_values (df : DataFrame) : list (list pyval) := [map snd df].

(** ** The external world *)

(** The classifier unpickled from [rf.pkl].  A field that is [None] is an
    attribute the object does not have ([hasattr] is false). *)
Record Model : Type := {
  n_features_in_ : option nat;
  feature_names_in_ : option (list string);
  predict : list (list pyval) -> result (list Z);
  predict_proba : list (list pyval) -> result (list (list float))
}.

(** Everything else the script calls and does not define: the unpickler, the
    widgets (by the label they are created with) and the SHAP library.  A
    widget is taken to return some value of its kind and never to raise:
    that Streamlit keeps a slider within its bounds and a radio button among
    its options, and refuses two widgets of one label, is not modelled (the
    statements about the form assume distinct names). *)
Record World : Type := {
  joblib_load : result Model;
  slider : string -> float;
  radio : string -> Z;
  form_submit_button : bool;
  shap_Explainer : Model -> result (DataFrame -> result Explanation);
  shap_waterfall : Explanation -> result unit
}.

(** ** Feature registry (lines 194-210) *)

Inductive FeatureSpec : Type :=
| numerical (min max default : float) (description unit : string)
| categorical (options : list Z) (default : Z) (description unit : string).

(** Bounds are kept as the floats the form turns them into ([float(...)]). *)
Definition feature_ranges : dict FeatureSpec :=
  [ ("Intraoperative Blood Loss",
      numerical 0 800 50 "手术期间的出血量 (ml)" "ml");
    ("CEA", numerical 0 150 8.68 "癌胚抗原水平" "ng/ml");
    ("Albumin", numerical 1 80 38.6 "血清白蛋白水平" "g/L");
    ("TNM Stage", categorical [1; 2; 3; 4]%Z 2 "肿瘤分期" "");
    ("Age", numerical 25 90 76 "患者年龄" "岁");
    ("Max Tumor Diameter", numerical 0.2 20 4 "肿瘤最大直径" "cm");
    ("Lymphovascular Invasion",
      categorical [0; 1]%Z 1 "淋巴血管侵犯 (0=否, 1=是)" "") ].

Definition description_of (properties : FeatureSpec) : string :=
  match properties with
  | numerical _ _ _ d _ => d
  | categorical _ _ d _ => d
  end.

Definition unit_of (properties : FeatureSpec) : string :=
  match properties with
  | numerical _ _ _ _ u => u
  | categorical _ _ _ u => u
  end.

(** ** The page *)

(** What the script renders, in order.  Layout-only markup (opening and
    closing [div]s, titles, the style sheet, the sidebar's notes, the footer)
    is not recorded, and rendering itself is taken to succeed: the calls that
    can raise are those of [Model] and [World]. *)
Inductive element : Type :=
| ModelLoadError (e : Exception)                         (* line 182 *)
| SidebarWarningUndefined (feature : string)             (* line 222 *)
| SidebarWarningUnused (feature : string)                (* line 227 *)
| Slider (feature : string) (min_value max_value value : float)
| Radio (feature : string) (options : list Z)
| FeatureTable (rows : list (string * string * string))  (* line 354 *)
| ResultHeader                                           (* line 360 *)
| MissingFeaturesError (missing_features : list string)  (* line 370 *)
| RiskCard (risk_category : risk)
| SurvivalCard (survival_probability : float)
| DeathCard (death_probability : float)
| Gauge (death_probability : float)
| ExplanationHeader                                      (* line 458 *)
| PredictionText (death_probability : float)
| WaterfallImage (contributions : Explanation)           (* line 504 *)
| WaterfallCaption
| ShapError (e : Exception)                              (* line 514 *)
| ShapWarning                                            (* line 515 *)
| PredictionError (e : Exception)                        (* line 518 *)
| PredictionWarning                                      (* line 519 *)
| ModelGuide.                                            (* lines 523-568 *)

Definition page : Type := list element.

(** ** Scripts *)

Inductive outcome (A : Type) : Type :=
| Done (a : A)
| Raised (e : Exception)   (* an exception on its way up *)
| Stopped.                 (* [st.stop()]: the run ends here *)

Arguments Done {A} a.
Arguments Raised {A} e.
Arguments Stopped {A}.

Definition Script (A : Type) : Type := page -> outcome A * page.

Definition ret {A : Type} (a : A) : Script A := fun pg => (Done a, pg).

Definition bind {A B : Type} (c : Script A) (k : A -> Script B) : Script B :=
  fun pg =>
    match c pg with
    | (Done a, pg') => k a pg'
    | (Raised e, pg') => (Raised e, pg')
    | (Stopped, pg') => (Stopped, pg')
    end.

(** Any [st.*] call that renders: the element goes last on the page. *)
Definition st (x : element) : Script unit := fun pg => (Done tt, pg ++ [x]).

Definition st_stop {A : Type} : Script A := fun pg => (Stopped, pg).

Definition call {A : Type} (r : result A) : Script A :=
  fun pg =>
    match r with
    | Returns a => (Done a, pg)
    | Raises e => (Raised e, pg)
    end.

(** [try: body  except Exception as e: handler(e)].  [st.stop()] is not an
    [Exception] and passes through. *)
Definition try_except {A : Type} (body : Script A) (handler : Exception -> Script A)
  : Script A :=
  fun pg =>
    match body pg with
    | (Raised e, pg') => handler e pg'
    | r => r
    end.

Declare Scope script_scope.
Delimit Scope script_scope with script.
Notation "x <- c ;; k" := (bind c (fun x => k))
  (at level 61, c at next level, right associativity) : script_scope.
Notation "c ;; k" := (bind c (fun _ => k))
  (at level 61, right associativity) : script_scope.
#[local] Open Scope script_scope.

(** [for x in l: acc = body(acc, x)] *)
Fixpoint for_fold {X S : Type} (l : list X) (acc : S) (body : S -> X -> Script S)
  : Script S :=
  match l with
  | [] => ret acc
  | x :: l' => acc' <- body acc x ;; for_fold l' acc' body
  end.

(** [for x in l: body(x)] *)
Definition for_each {X : Type} (l : list X) (body : X -> Script unit) : Script unit :=
  for_fold l tt (fun _ x => body x).

(** [d[k]], raising [KeyError] *)
Definition dict_getitem {V : Type} (k : string) (d : dict V) : Script V :=
  match dict_get k d with
  | Some v => ret v
  | None => call (Raises (KeyError k))
  end.

(** ** The script *)

(** [load_model()] (lines 172-185): [None] when unpickling raises. *)
Definition load_model (w : World) : Script (option Model) :=
  try_except
    (model <- call (joblib_load w) ;; ret (Some model))
    (fun e => st (ModelLoadError e) ;; ret None).

(** [model is not None and hasattr(model, 'feature_names_in_')], with the
    attribute when it holds. *)
Definition declared_names (model : option Model) : option (list string) :=
  match model with
  | Some m => feature_names_in_ m
  | None => None
  end.

(** Feature order (lines 212-233).  Returns [feature_input_order] and the
    dictionary [feature_ranges] stands for from here on. *)
Definition reconcile (model : option Model) (feature_ranges : dict FeatureSpec)
  : Script (list string * dict FeatureSpec) :=
  match declared_names model with
  | Some names =>
      let feature_input_order := names in
      feature_ranges_ordered <-
        for_fold feature_input_order []
          (fun feature_ranges_ordered feature =>
             match dict_get feature feature_ranges with
             | Some properties =>
                 ret (dict_set feature properties feature_ranges_ordered)
             | None =>
                 st (SidebarWarningUndefined feature) ;;
                 ret feature_ranges_ordered
             end) ;;
      for_each (dict_keys feature_ranges)
        (fun feature =>
           if name_in feature feature_input_order then ret tt
           else st (SidebarWarningUnused feature)) ;;
      ret (feature_input_order, feature_ranges_ordered)
  | None => ret (dict_keys feature_ranges, feature_ranges)
  end.

(** The input form (lines 282-336): one widget per name of
    [feature_input_order]; returns [feature_values]. *)
Definition form (w : World) (feature_input_order : list string)
    (feature_ranges : dict FeatureSpec) : Script (dict pyval) :=
  for_fold feature_input_order []
    (fun feature_values feature =>
       properties <- dict_getitem feature feature_ranges ;;
       value <-
         match properties with
         | numerical min max default _ _ =>
             st (Slider feature min max default) ;;
             ret (PyFloat (slider w feature))
         | categorical options _ _ _ =>
             st (Radio feature options) ;;
             ret (PyInt (radio w feature))
         end ;;
       ret (dict_set feature value feature_values)).

(** The table of features (lines 345-354). *)
Definition feature_table (feature_input_order : list string)
    (feature_ranges : dict FeatureSpec) : Script unit :=
  feature_description <-
    for_fold feature_input_order []
      (fun feature_description feature =>
         properties <- dict_getitem feature feature_ranges ;;
         ret (feature_description ++
              [(feature, description_of properties,
                 if (unit_of properties =? "")%string then "无"
                 else unit_of properties)])) ;;
  st (FeatureTable feature_description).

(** Model input (lines 362-377): the frame whose [values] go to the model. *)
Definition build_vector (model : Model) (feature_values : dict pyval)
  : Script DataFrame :=
  let features_df := DataFrame_of_row feature_values in
  match feature_names_in_ model with
  | Some names =>
      let missing_features :=
        filter (fun f => negb (name_in f (columns features_df))) names in
      match missing_features with
      | _ :: _ => st (MissingFeaturesError missing_features) ;; st_stop
      | [] => call (select names features_df)
      end
  | None => ret features_df
  end.

(** The result cards, the gauge and the sentence (lines 399-475). *)
Definition show_prediction (risk_category : risk)
    (survival_probability death_probability : float) : Script unit :=
  st (RiskCard risk_category) ;;
  st (SurvivalCard survival_probability) ;;
  st (DeathCard death_probability) ;;
  st (Gauge death_probability) ;;
  st ExplanationHeader ;;
  st (PredictionText death_probability).

(** Which slice of the SHAP values is plotted (lines 489-495).  The test
    [hasattr(shap_values, 'values')] holds of every [Explanation]; what is
    left of the condition is [len(shap_values.values.shape) > 2]. *)
Definition shap_select (shap_values : Explanation) : result Explanation :=
  if (2 <? ndim (values shap_values))%nat
  then explanation_of (ndarray_0_all_1 (values shap_values))
  else explanation_of (ndarray_0 (values shap_values)).

(** The body of the inner [try] (lines 478-511). *)
Definition shap_section (w : World) (model : Model) (features_df : DataFrame)
  : Script unit :=
  explainer <- call (shap_Explainer w model) ;;
  shap_values <- call (explainer features_df) ;;
  selected <- call (shap_select shap_values) ;;
  call (shap_waterfall w selected) ;;
  st (WaterfallImage selected) ;;
  st WaterfallCaption.

(** The body of the outer [try] (lines 381-515). *)
Definition predict_and_explain (w : World) (model : Model)
    (features_df : DataFrame) : Script unit :=
  let features_array := df_values features_df in
  predictions <- call (predict model features_array) ;;
  predicted_class <- call (getitem predictions 0) ;;
  probabilities <- call (predict_proba model features_array) ;;
  predicted_proba <- call (getitem probabilities 0) ;;
  proba_1 <- call (getitem predicted_proba 1) ;;
  let death_probability := (proba_1 * 100)%float in
  let survival_probability := (100 - death_probability)%float in
  show_prediction (risk_category death_probability)
                  survival_probability death_probability ;;
  try_except
    (shap_section w model features_df)
    (fun shap_error => st (ShapError shap_error) ;; st ShapWarning).

(** The result column when the button was pressed and a model is loaded
    (lines 359-521). *)
Definition predict_section (w : World) (model : Model) (feature_values : dict pyval)
  : Script unit :=
  st ResultHeader ;;
  features_df <- build_vector model feature_values ;;
  try_except
    (predict_and_explain w model features_df)
    (fun e => st (PredictionError e) ;; st PredictionWarning).

(** One run of the script. *)
Definition script (w : World) : Script unit :=
  model <- load_model w ;;
  order_and_ranges <- reconcile model feature_ranges ;;
  let feature_input_order := fst order_and_ranges in
  let feature_ranges := snd order_and_ranges in
  feature_values <- form w feature_input_order feature_ranges ;;
  let predict_button := form_submit_button w in
  feature_table feature_input_order feature_ranges ;;
  match predict_button, model with
  | true, Some model => predict_section w model feature_values
  | _, _ => st ModelGuide
  end.

(** ** Vocabulary of the specification *)

(** The resolved contract's [required_order]: the [feature_input_order] of
    [reconcile]. *)
Definition required_order (model : option Model) (registry : dict FeatureSpec)
  : list string :=
  match declared_names model with
  | Some names => names
  | None => dict_keys registry
  end.

(** [v == o] for a value and an option of a categorical feature. *)
Definition pyval_eqb_Z (v : pyval) (o : Z) : bool :=
  match v with
  | PyInt z => (z =? o)%Z
  | PyFloat x => (x =? float_of_Z o)%float
  end.

(** The specification's "within declared bounds (numerical) or options
    (categorical)".  The script has no such test of its own: this follows
    the specification's words over the registry. *)
Definition spec_within_declared (properties : FeatureSpec) (v : pyval) : bool :=
  match properties with
  | numerical min max _ _ _ =>
      ((min <=? to_float v) && (to_float v <=? max))%float
  | categorical options _ _ _ => existsb (pyval_eqb_Z v) options
  end.

(** Element [a[i, j, k]] of a three-dimensional array, and [a[i, j]] of a
    two-dimensional one, read off the row-major data. *)
Definition at3 (a : ndarray) (i j k : nat) : option float :=
  match shape a with
  | [_; f; c] => nth_error (data a) ((i * f + j) * c + k)
  | _ => None
  end.

Definition at2 (a : ndarray) (i j : nat) : option float :=
  match shape a with
  | [_; f] => nth_error (data a) (i * f + j)
  | _ => None
  end.

Definition at1 (a : ndarray) (j : nat) : option float :=
  match shape a with
  | [_] => nth_error (data a) j
  | _ => None
  end.

(** An array holds as many elements as its shape says. *)
Definition well_shaped (a : ndarray) : Prop :=
  List.length (data a) = size_of (shape a).

(** ** Vocabulary of the page *)

(** What the form renders for a registry entry (lines 290-331). *)
Definition widget_of (entry : string * FeatureSpec) : element :=
  match snd entry with
  | numerical min max default _ _ => Slider (fst entry) min max default
  | categorical options _ _ _ => Radio (fst entry) options
  end.

(** The value the widget of a registry entry hands back. *)
Definition widget_value (w : World) (entry : string * FeatureSpec) : pyval :=
  match snd entry with
  | numerical _ _ _ _ _ => PyFloat (slider w (fst entry))
  | categorical _ _ _ _ => PyInt (radio w (fst entry))
  end.

(** The row of the feature table for a registry entry (lines 348-352). *)
Definition table_row (entry : string * FeatureSpec) : string * string * string :=
  (fst entry, description_of (snd entry),
   if (unit_of (snd entry) =? "")%string then "无" else unit_of (snd entry)).

(** The registry entries of the given names, in the order of the names;
    a name without an entry contributes nothing. *)
Definition entries_of (registry : dict FeatureSpec) (names : list string)
  : list (string * FeatureSpec) :=
  flat_map (fun f => match dict_get f registry with
                     | Some properties => [(f, properties)]
                     | None => []
                     end) names.

(** [feature_values] after the widgets of the entries have been read. *)
Definition form_values (w : World) (entries : list (string * FeatureSpec))
  : dict pyval :=
  fold_left (fun feature_values entry =>
               dict_set (fst entry) (widget_value w entry) feature_values)
            entries [].

(** The model a run works with: [None] when unpickling raised. *)
Definition loaded (artifact : result Model) : option Model :=
  match artifact with
  | Returns m => Some m
  | Raises _ => None
  end.

(** What the page holds before the result column, when every name of the
    feature order has a registry entry: the load error if any, the warnings
    for registry features the model does not declare, the widgets, the
    table. *)
Definition preamble (w : World) : page :=
  let model := loaded (joblib_load w) in
  let entries := entries_of feature_ranges (required_order model feature_ranges) in
  match joblib_load w with
  | Returns _ => []
  | Raises e => [ModelLoadError e]
  end ++
  match declared_names model with
  | Some names =>
      map SidebarWarningUnused
          (filter (fun f => negb (name_in f names)) (dict_keys feature_ranges))
  | None => []
  end ++
  map widget_of entries ++
  [FeatureTable (map table_row entries)].

(** The tiers in increasing order of risk. *)
Definition risk_rank (r : risk) : nat :=
  match r with
  | LowRisk => 0
  | ModerateRisk => 1
  | HighRisk => 2
  end.

(** ** Stubs of the test scenarios *)

(** The patient of the end-to-end scenario, keys in the order given there. *)
Definition scenario_input : dict pyval :=
  [ ("Age", PyFloat 55);
    ("TNM Stage", PyInt 2);
    ("Max Tumor Diameter", PyFloat 2.5);
    ("Albumin", PyFloat 40);
    ("CEA", PyFloat 3.2);
    ("Lymphovascular Invasion", PyInt 0);
    ("Intraoperative Blood Loss", PyFloat 50) ].

(** A classifier that answers class 0 with probabilities [0.92, 0.08]
    whatever it is given, with or without declared feature names. *)
Definition stub_model (names : option (list string)) : Model :=
  {| n_features_in_ := option_map (@List.length string) names;
     feature_names_in_ := names;
     predict := fun _ => Returns [0%Z];
     predict_proba := fun _ => Returns [[0.92; 0.08]%float] |}.

(** A training order for the seven features. *)
Definition trained_order : list string :=
  [ "Age"; "TNM Stage"; "Max Tumor Diameter"; "Albumin"; "CEA";
    "Lymphovascular Invasion"; "Intraoperative Blood Loss" ].

(** Stub attribution outputs: seven features, flat (1 x 7) and per class
    (1 x 7 x 2, the pair of feature j being -(j+1), j+1). *)
Definition flat_values : ndarray :=
  {| shape := [1; 7]; data := [1; 2; 3; 4; 5; 6; 7]%float |}.

Definition per_class_values : ndarray :=
  {| shape := [1; 7; 2];
     data := [-1; 1; -2; 2; -3; 3; -4; 4; -5; 5; -6; 6; -7; 7]%float |}.

Definition stub_explainer (a : ndarray) : Model -> result (DataFrame -> result Explanation) :=
  fun _ => Returns (fun _ => Returns {| values := a |}).

Definition failing_explainer : Model -> result (DataFrame -> result Explanation) :=
  fun _ => Raises (Error "Model type not yet supported").

(** A world whose widgets are set to the scenario's patient. *)
Definition stub_world (artifact : result Model) (pressed : bool)
    (explainer : Model -> result (DataFrame -> result Explanation)) : World :=
  {| joblib_load := artifact;
     slider := fun feature =>
                 match dict_get feature scenario_input with
                 | Some v => to_float v
                 | None => 0%float
                 end;
     radio := fun feature =>
                match dict_get feature scenario_input with
                | Some (PyInt z) => z
                | _ => 0%Z
                end;
     form_submit_button := pressed;
     shap_Explainer := explainer;
     shap_waterfall := fun _ => Returns tt |}.

(** The scenario's patient with an age of 200 years. *)
Definition out_of_bounds_input : dict pyval :=
  dict_set "Age" (PyFloat 200) scenario_input.

(** A classifier that rejects whatever it is given. *)
Definition failing_model (names : option (list string)) : Model :=
  {| n_features_in_ := option_map (@List.length string) names;
     feature_names_in_ := names;
     predict := fun _ => Raises (Error "X has 6 features, but RandomForestClassifier is expecting 7 features as input.");
     predict_proba := fun _ => Raises (Error "X has 6 features, but RandomForestClassifier is expecting 7 features as input.") |}.

(** A classifier trained on a feature the form does not define. *)
Definition bmi_model : Model := stub_model (Some ["Age"; "BMI"; "CEA"]).

(** A classifier fitted on patients of a single class: one probability. *)
Definition single_class_model : Model :=
  {| n_features_in_ := None;
     feature_names_in_ := None;
     predict := fun _ => Returns [0%Z];
     predict_proba := fun _ => Returns [[1%float]] |}.

(** ** Facts on binary64 comparison *)

Module F64.

Lemma SFcompare_antisym (x y : spec_float) :
  SFcompare y x = option_map CompOpp (SFcompare x y).
Proof.
  destruct x as [sx|sx| |sx mx ex], y as [sy|sy| |sy my ey]; cbn;
    try reflexivity;
    try (destruct sx; reflexivity);
    try (destruct sy; reflexivity);
    try (destruct sx, sy; reflexivity).
  assert (Hm : Pos.compare_cont Eq my mx = CompOpp (Pos.compare_cont Eq mx my))
    by (rewrite Pos.compare_cont_antisym; reflexivity).
  destruct sx, sy; cbn; try reflexivity;
    rewrite (Z.compare_antisym ex ey);
    destruct (ex ?= ey)%Z; cbn; try reflexivity;
    rewrite Hm; destruct (Pos.compare_cont Eq mx my); reflexivity.
Qed.

Lemma SFcompare_nan (x y : spec_float) :
  SFcompare x y = None -> x = S754_nan \/ y = S754_nan.
Proof.
  destruct x as [sx|sx| |sx mx ex], y as [sy|sy| |sy my ey]; cbn;
    intros H; auto; try discriminate.
Qed.

Lemma is_nan_false (p : float) :
  PrimFloat.is_nan p = false -> Prim2SF p <> S754_nan.
Proof.
  unfold PrimFloat.is_nan. rewrite FloatAxioms.eqb_spec. intros H E.
  rewrite E in H. discriminate H.
Qed.

(** [a < b] excludes [b <= a]. *)
Lemma ltb_not_leb (a b : float) :
  (a <? b)%float = true -> (b <=? a)%float = false.
Proof.
  rewrite FloatAxioms.ltb_spec, FloatAxioms.leb_spec. unfold SFltb, SFleb.
  rewrite (SFcompare_antisym (Prim2SF a) (Prim2SF b)).
  destruct (SFcompare (Prim2SF a) (Prim2SF b)) as [[]|]; cbn; congruence.
Qed.

(** On numbers the order is total: not [a < b] gives [b <= a]. *)
Lemma not_ltb_leb (a b : float) :
  PrimFloat.is_nan a = false -> PrimFloat.is_nan b = false ->
  (a <? b)%float = false -> (b <=? a)%float = true.
Proof.
  intros Ha Hb. apply is_nan_false in Ha. apply is_nan_false in Hb.
  rewrite FloatAxioms.ltb_spec, FloatAxioms.leb_spec. unfold SFltb, SFleb.
  rewrite (SFcompare_antisym (Prim2SF a) (Prim2SF b)).
  destruct (SFcompare (Prim2SF a) (Prim2SF b)) as [[]|] eqn:E; cbn;
    try congruence.
  destruct (SFcompare_nan _ _ E); contradiction.
Qed.

Lemma leb_not_ltb (a b : float) :
  (b <=? a)%float = true -> (a <? b)%float = false.
Proof.
  intros H. destruct (a <? b)%float eqn:E; [|reflexivity].
  apply ltb_not_leb in E. congruence.
Qed.

(** Below a positive float with a smaller exponent lies everything that
    is below one with a larger exponent. *)
Lemma SFltb_smaller_exponent (m1 m2 : positive) (e1 e2 : Z) (x : spec_float) :
  (e2 < e1)%Z ->
  SFltb (S754_finite false m1 e1) x = true ->
  SFltb (S754_finite false m2 e2) x = true.
Proof.
  intros He. unfold SFltb.
  destruct x as [s|s| |s m e]; cbn; try congruence.
  destruct s; try congruence.
  destruct (Z.compare_spec e1 e) as [E|E|E];
    destruct (Z.compare_spec e2 e) as [E'|E'|E']; try lia; congruence.
Qed.

(** Above 70 is above 30. *)
Lemma above_70_above_30 (p : float) :
  (70 <? p)%float = true -> (30 <? p)%float = true.
Proof.
  rewrite !FloatAxioms.ltb_spec.
  change (Prim2SF 70) with (S754_finite false 4925812092436480 (-46)).
  change (Prim2SF 30) with (S754_finite false 8444249301319680 (-48)).
  apply SFltb_smaller_exponent. lia.
Qed.

End F64.

(** C2: the tier is moderate exactly on (30, 70] and high exactly above 70,
    for every float; on every number (anything but NaN) it is low exactly
    when p <= 30.  The five boundary readings of the source follow. *)
Theorem risk_category_thresholds (p : float) :
  PrimFloat.is_nan p = false ->
  (risk_category p = LowRisk <-> (p <=? 30)%float = true) /\
  (risk_category p = ModerateRisk <->
     (30 <? p)%float = true /\ (p <=? 70)%float = true) /\
  (risk_category p = HighRisk <-> (70 <? p)%float = true) /\
  risk_category 30 = LowRisk /\
  risk_category 70 = ModerateRisk /\
  risk_category 70.1 = HighRisk /\
  risk_category 0 = LowRisk /\
  risk_category 100 = HighRisk.
Proof.
  intros Hp.
  assert (Hlow : risk_category p = LowRisk <-> (p <=? 30)%float = true).
  { unfold risk_category. split.
    - destruct (30 <? p)%float eqn:A.
      + destruct (p <=? 70)%float eqn:B; cbn; [discriminate|].
        destruct (70 <? p)%float eqn:C; [discriminate|].
        apply (F64.not_ltb_leb 70 p) in C; [congruence | reflexivity | exact Hp].
      + intros _. apply (F64.not_ltb_leb 30 p); [reflexivity | exact Hp | exact A].
    - intros H. apply F64.leb_not_ltb in H. rewrite H. cbn.
      destruct (70 <? p)%float eqn:C; [|reflexivity].
      apply F64.above_70_above_30 in C. congruence. }
  assert (Hmod : risk_category p = ModerateRisk <->
                 (30 <? p)%float = true /\ (p <=? 70)%float = true).
  { unfold risk_category. split.
    - destruct ((30 <? p)%float && (p <=? 70)%float) eqn:A.
      + intros _. apply andb_prop in A. exact A.
      + destruct (70 <? p)%float; discriminate.
    - intros [A B]. rewrite A, B. reflexivity. }
  assert (Hhigh : risk_category p = HighRisk <-> (70 <? p)%float = true).
  { unfold risk_category. split.
    - destruct ((30 <? p)%float && (p <=? 70)%float) eqn:A; [discriminate|].
      destruct (70 <? p)%float; [reflexivity | discriminate].
    - intros C.
      rewrite (F64.above_70_above_30 p C), (F64.ltb_not_leb 70 p C), C.
      reflexivity. }
  repeat (split; [assumption || reflexivity|]). reflexivity.
Qed.

(** The thresholds at a death probability of 42.5 percent. *)
Lemma risk_category_thresholds_witness :
  (risk_category 42.5 = ModerateRisk <->
     (30 <? 42.5)%float = true /\ (42.5 <=? 70)%float = true).
Proof.
  exact (proj1 (proj2 (risk_category_thresholds 42.5 eq_refl))).
Defined.

(** A NaN is above nothing: it falls through both tests to the low tier. *)
Example risk_category_nan : risk_category PrimFloat.nan = LowRisk.
Proof. reflexivity. Qed.

(** ** Dictionaries and frames *)

Section DictFacts.
Context {V : Type}.
Implicit Types (d : dict V) (k : string).

Lemma dict_mem_get k d :
  dict_mem k d = true <-> exists v, dict_get k d = Some v.
Proof.
  unfold dict_mem. destruct (dict_get k d) as [v|].
  - split; [eauto | reflexivity].
  - split; [discriminate | intros [v H]; discriminate].
Qed.

Lemma name_in_keys k d : name_in k (dict_keys d) = dict_mem k d.
Proof.
  unfold dict_mem, name_in, dict_keys.
  induction d as [|[k' v] d IH]; cbn; [reflexivity|].
  destruct (String.eqb k k'); [reflexivity | exact IH].
Qed.

Lemma dict_get_In k d v : dict_get k d = Some v -> In (k, v) d.
Proof.
  induction d as [|[k' v'] d IH]; cbn; [discriminate|].
  destruct (String.eqb_spec k k') as [->|_].
  - intros [= ->]. now left.
  - intros H. right. auto.
Qed.

Lemma dict_get_None k d : dict_get k d = None -> ~ In k (dict_keys d).
Proof.
  induction d as [|[k' v'] d IH]; cbn; [tauto|].
  destruct (String.eqb_spec k k') as [->|N]; [discriminate|].
  intros H [E|I]; [congruence | exact (IH H I)].
Qed.

(** Reordering the items of a dictionary changes no lookup. *)
Lemma dict_get_Permutation d d' :
  NoDup (dict_keys d) -> Permutation d d' ->
  forall k, dict_get k d = dict_get k d'.
Proof.
  intros ND P. induction P as [|[k0 v0] l l' P IH|[k1 v1] [k2 v2] l|l l' l'' P1 IH1 P2 IH2];
    intros k.
  - reflexivity.
  - cbn. inversion ND; subst. rewrite IH by assumption. reflexivity.
  - cbn. inversion ND as [|? ? N1 ND']; subst. cbn in N1.
    destruct (String.eqb_spec k k1) as [->|]; [|reflexivity].
    destruct (String.eqb_spec k1 k2) as [->|]; [|reflexivity].
    exfalso. apply N1. now left.
  - rewrite IH1 by assumption. apply IH2.
    unfold dict_keys. apply (Permutation_NoDup (l := map fst l)); [|exact ND].
    apply Permutation_map. exact P1.
Qed.

Lemma dict_keys_set_new k (v : V) d :
  dict_get k d = None -> dict_keys (dict_set k v d) = dict_keys d ++ [k].
Proof.
  unfold dict_keys.
  induction d as [|[k' v'] d IH]; cbn; [reflexivity|].
  destruct (String.eqb k k'); [discriminate|].
  intros H. cbn. now rewrite IH.
Qed.

Lemma dict_keys_set_old k (v : V) d :
  dict_get k d <> None -> dict_keys (dict_set k v d) = dict_keys d.
Proof.
  unfold dict_keys.
  induction d as [|[k' v'] d IH]; cbn; [congruence|].
  destruct (String.eqb k k'); [reflexivity|].
  intros H. cbn. now rewrite IH.
Qed.

Lemma dict_get_set k k' (v : V) d :
  dict_get k (dict_set k' v d) =
  if String.eqb k k' then Some v else dict_get k d.
Proof.
  induction d as [|[k0 v0] d IH]; cbn.
  - destruct (String.eqb k k'); reflexivity.
  - destruct (String.eqb_spec k' k0) as [->|N]; cbn.
    + destruct (String.eqb k k0); reflexivity.
    + rewrite IH. destruct (String.eqb_spec k k0) as [->|]; [|reflexivity].
      destruct (String.eqb_spec k0 k') as [E|]; [congruence | reflexivity].
Qed.
End DictFacts.

(** No name is missing exactly when every name is a column. *)
Lemma missing_features_nil (names : list string) (df : DataFrame) :
  filter (fun f => negb (name_in f (columns df))) names = [] <->
  (forall f, In f names -> dict_mem f df = true).
Proof.
  induction names as [|f names IH]; cbn.
  - split; [intros _ f [] | reflexivity].
  - change (columns df) with (dict_keys df) in *.
    rewrite name_in_keys. destruct (dict_mem f df) eqn:M; cbn.
    + rewrite IH. split.
      * intros H g [<-|I]; auto.
      * intros H g I. apply H. now right.
    + split; [discriminate|]. intros H.
      specialize (H f (or_introl eq_refl)). congruence.
Qed.

(** A missing name is among the names reported. *)
Lemma missing_features_In (names : list string) (df : DataFrame) (f : string) :
  In f names -> dict_mem f df = false ->
  In f (filter (fun f => negb (name_in f (columns df))) names).
Proof.
  intros I M. apply filter_In. split; [exact I|].
  change (columns df) with (dict_keys df). now rewrite name_in_keys, M.
Qed.

(** [df[names]] returns the named columns, in the order of [names], with
    the values of [df]. *)
Lemma select_present (names : list string) (df : DataFrame) :
  (forall f, In f names -> dict_mem f df = true) ->
  exists r, select names df = Returns r /\ columns r = names /\
            (forall f v, In (f, v) r -> dict_get f df = Some v).
Proof.
  induction names as [|f names IH]; intros H.
  - exists []. cbn. repeat split. intros f v [].
  - destruct IH as (r & S & C & G); [intros g I; apply H; now right|].
    destruct (proj1 (dict_mem_get f df) (H f (or_introl eq_refl))) as [v Hv].
    exists ((f, v) :: r). cbn. rewrite Hv, S. repeat split.
    + unfold columns in *. cbn. now rewrite C.
    + intros g u [[= <- <-]|I]; auto.
Qed.

Lemma select_ext (names : list string) (df df' : DataFrame) :
  (forall k, dict_get k df = dict_get k df') ->
  select names df = select names df'.
Proof.
  intros E. induction names as [|f names IH]; cbn; [reflexivity|].
  now rewrite E, IH.
Qed.

(** ** Building the model input *)

(** With declared names that are all present, the frame is [df[names]]. *)
Lemma build_vector_named (m : Model) (names : list string) (fv : dict pyval) (pg : page) :
  feature_names_in_ m = Some names ->
  (forall f, In f names -> dict_mem f fv = true) ->
  build_vector m fv pg = call (select names fv) pg.
Proof.
  intros N H. unfold build_vector. rewrite N.
  apply (proj2 (missing_features_nil names (DataFrame_of_row fv))) in H.
  now rewrite H.
Qed.

Lemma build_vector_unnamed (m : Model) (fv : dict pyval) (pg : page) :
  feature_names_in_ m = None -> build_vector m fv pg = (Done fv, pg).
Proof. intros N. unfold build_vector. now rewrite N. Qed.

(** Whenever every declared name has a value, the frame is built. *)
Lemma build_vector_present (m : Model) (fv : dict pyval) (pg : page) :
  (forall names, feature_names_in_ m = Some names ->
     forall f, In f names -> dict_mem f fv = true) ->
  exists df, build_vector m fv pg = (Done df, pg).
Proof.
  intros H. destruct (feature_names_in_ m) as [names|] eqn:N.
  - specialize (H names eq_refl).
    destruct (select_present names fv H) as (r & S & _).
    exists r. rewrite (build_vector_named m names fv pg N H).
    unfold call. now rewrite S.
  - exists fv. now apply build_vector_unnamed.
Qed.

(** Building the input renders nothing unless it stops, and never raises. *)
Lemma build_vector_outcome (m : Model) (fv : dict pyval) (pg : page) :
  (exists df, build_vector m fv pg = (Done df, pg)) \/
  (exists missing, build_vector m fv pg = (Stopped, pg ++ [MissingFeaturesError missing])).
Proof.
  unfold build_vector. destruct (feature_names_in_ m) as [names|].
  - destruct (filter _ names) as [|f missing] eqn:F.
    + left.
      pose proof (proj1 (missing_features_nil names (DataFrame_of_row fv)) F) as P.
      destruct (select_present names _ P) as (r & S & _).
      exists r. unfold call. now rewrite S.
    + right. exists (f :: missing). reflexivity.
  - left. exists fv. reflexivity.
Qed.

(** ** Loops *)

(** A loop whose body always completes completes. *)
Lemma for_fold_total {X S : Type} (body : S -> X -> Script S) :
  (forall acc x pg, exists acc' pg', body acc x pg = (Done acc', pg')) ->
  forall l acc pg, exists acc' pg', for_fold l acc body pg = (Done acc', pg').
Proof.
  intros H l. induction l as [|x l IH]; intros acc pg; cbn.
  - exists acc, pg. reflexivity.
  - unfold bind. destruct (H acc x pg) as (acc' & pg' & E). rewrite E. apply IH.
Qed.

(** ** Feature order *)

(** The first loop of the reconciliation (lines 217-222): what the ordered
    dictionary holds, its key order, and the warnings. *)
Lemma reconcile_fold (registry : dict FeatureSpec) (names : list string) :
  forall (acc : dict FeatureSpec) (pg : page),
  exists ranges extra,
    for_fold names acc
      (fun feature_ranges_ordered feature =>
         match dict_get feature registry with
         | Some properties =>
             ret (dict_set feature properties feature_ranges_ordered)
         | None =>
             st (SidebarWarningUndefined feature) ;;
             ret feature_ranges_ordered
         end) pg = (Done ranges, pg ++ extra) /\
    (forall f, dict_get f ranges =
               if name_in f names && dict_mem f registry
               then dict_get f registry else dict_get f acc) /\
    (NoDup names -> (forall f, In f names -> dict_get f acc = None) ->
     dict_keys ranges = dict_keys acc ++ filter (fun f => dict_mem f registry) names) /\
    (forall f, In f names -> dict_mem f registry = false ->
               In (SidebarWarningUndefined f) extra).
Proof.
  induction names as [|n names IH]; intros acc pg.
  - exists acc, []. cbn. rewrite app_nil_r.
    split; [reflexivity|]. split; [reflexivity|]. split.
    + intros _ _. now rewrite app_nil_r.
    + intros f [].
  - cbn [for_fold]. unfold bind at 1.
    destruct (dict_get n registry) as [p|] eqn:G.
    + unfold ret at 1.
      destruct (IH (dict_set n p acc) pg) as (ranges & extra & E & L & K & W).
      exists ranges, extra. split; [exact E|]. split; [|split].
      * intros f. rewrite L, dict_get_set. cbn [name_in existsb].
        fold (name_in f names).
        destruct (String.eqb_spec f n) as [->|N]; cbn [orb andb].
        -- unfold dict_mem. rewrite G.
           destruct (name_in n names); reflexivity.
        -- reflexivity.
      * intros ND A. inversion ND as [|? ? Nn ND']; subst.
        rewrite K.
        -- rewrite dict_keys_set_new by (apply A; now left).
           cbn [filter]. unfold dict_mem at 2. rewrite G.
           now rewrite <- app_assoc.
        -- exact ND'.
        -- intros f I. rewrite dict_get_set.
           destruct (String.eqb_spec f n) as [->|]; [contradiction|].
           apply A. now right.
      * intros f [<-|I] M.
        -- unfold dict_mem in M. rewrite G in M. discriminate.
        -- apply W; assumption.
    + unfold st at 1, ret at 1, bind at 1.
      destruct (IH acc (pg ++ [SidebarWarningUndefined n]))
        as (ranges & extra & E & L & K & W).
      exists ranges, (SidebarWarningUndefined n :: extra).
      split; [|split; [|split]].
      * rewrite E. now rewrite <- app_assoc.
      * intros f. rewrite L. cbn [name_in existsb]. fold (name_in f names).
        destruct (String.eqb_spec f n) as [->|N]; cbn [orb andb]; [|reflexivity].
        assert (M : dict_mem n registry = false)
          by (unfold dict_mem; now rewrite G).
        rewrite M, andb_false_r. reflexivity.
      * intros ND A. inversion ND as [|? ? Nn ND']; subst.
        rewrite K.
        -- cbn [filter]. unfold dict_mem at 2. now rewrite G.
        -- exact ND'.
        -- intros f I. apply A. now right.
      * intros f [<-|I] M; [now left|]. right. apply W; assumption.
Qed.

(** The second loop (lines 225-227): one warning per registry feature the
    model does not declare. *)
Lemma unused_loop (names keys : list string) (pg : page) :
  for_each keys
    (fun feature =>
       if name_in feature names then ret tt
       else st (SidebarWarningUnused feature)) pg
  = (Done tt,
     pg ++ map SidebarWarningUnused (filter (fun f => negb (name_in f names)) keys)).
Proof.
  unfold for_each. revert pg.
  induction keys as [|k keys IH]; intros pg; cbn.
  - now rewrite app_nil_r.
  - unfold bind. destruct (name_in k names); cbn.
    + apply IH.
    + rewrite IH. now rewrite <- app_assoc.
Qed.

(** The order the reconciliation returns is [required_order]. *)
Lemma reconcile_returns_required_order (model : option Model)
    (registry : dict FeatureSpec) (pg : page) :
  exists ranges pg',
    reconcile model registry pg
    = (Done (required_order model registry, ranges), pg').
Proof.
  unfold reconcile, required_order.
  destruct (declared_names model) as [names|]; [|eexists; eexists; reflexivity].
  destruct (reconcile_fold registry names [] pg) as (ranges & extra & E & _).
  exists ranges. eexists.
  unfold bind at 1. rewrite E. unfold bind at 1. rewrite unused_loop.
  reflexivity.
Qed.

(** What the reconciliation returns when the model declares its names. *)
Lemma reconcile_declared (model : option Model) (registry : dict FeatureSpec)
    (names : list string) (pg : page) :
  declared_names model = Some names ->
  exists ranges undefined,
    reconcile model registry pg
    = (Done (names, ranges),
       pg ++ undefined ++
       map SidebarWarningUnused
           (filter (fun f => negb (name_in f names)) (dict_keys registry))) /\
    (forall f, dict_get f ranges =
               if name_in f names then dict_get f registry else None) /\
    (NoDup names ->
     dict_keys ranges = filter (fun f => dict_mem f registry) names) /\
    (forall f, In f names -> dict_mem f registry = false ->
               In (SidebarWarningUndefined f) undefined).
Proof.
  intros D. unfold reconcile. rewrite D.
  destruct (reconcile_fold registry names [] pg) as (ranges & extra & E & L & K & W).
  exists ranges, extra. split; [|split; [|split]].
  - unfold bind at 1. rewrite E. unfold bind at 1. rewrite unused_loop.
    unfold ret. now rewrite <- app_assoc.
  - intros f. rewrite L. cbn [dict_get].
    destruct (name_in f names); cbn; [|reflexivity].
    unfold dict_mem. destruct (dict_get f registry); reflexivity.
  - intros ND. apply K; [exact ND | reflexivity].
  - exact W.
Qed.

Lemma reconcile_undeclared (model : option Model) (registry : dict FeatureSpec)
    (pg : page) :
  declared_names model = None ->
  reconcile model registry pg = (Done (dict_keys registry, registry), pg).
Proof. intros D. unfold reconcile. now rewrite D. Qed.

(** C5: the reconciliation always completes, and the order it returns is the
    model's declared list of names, as it is, when a model is loaded and
    declares one, and the registry's declaration order otherwise. *)
Theorem reconcile_required_order (model : option Model)
    (registry : dict FeatureSpec) (pg : page) :
  exists ranges pg',
    reconcile model registry pg
    = (Done (match model with
             | Some m =>
                 match feature_names_in_ m with
                 | Some names => names
                 | None => dict_keys registry
                 end
             | None => dict_keys registry
             end, ranges), pg').
Proof.
  destruct (declared_names model) as [names|] eqn:D.
  - destruct (reconcile_declared model registry names pg D) as (ranges & u & E & _).
    exists ranges. eexists. rewrite E.
    destruct model as [m|]; cbn in D; [|discriminate]. now rewrite D.
  - exists registry, pg. rewrite (reconcile_undeclared model registry pg D).
    destruct model as [m|]; cbn in D; [now rewrite D | reflexivity].
Qed.

(** ** The form *)

(** The form fills in a value for every name, in order, when every name has
    an entry in the dictionary it reads. *)
Lemma form_total (w : World) (ranges : dict FeatureSpec) (order : list string) :
  (forall f, In f order -> dict_mem f ranges = true) ->
  forall (acc : dict pyval) (pg : page),
  exists fv pg',
    for_fold order acc
      (fun feature_values feature =>
         properties <- dict_getitem feature ranges ;;
         value <-
           match properties with
           | numerical min max default _ _ =>
               st (Slider feature min max default) ;;
               ret (PyFloat (slider w feature))
           | categorical options _ _ _ =>
               st (Radio feature options) ;;
               ret (PyInt (radio w feature))
           end ;;
         ret (dict_set feature value feature_values)) pg = (Done fv, pg') /\
    (forall f, In f order -> dict_mem f fv = true) /\
    (forall f, dict_mem f acc = true -> dict_mem f fv = true) /\
    (NoDup order -> (forall f, In f order -> dict_get f acc = None) ->
     dict_keys fv = dict_keys acc ++ order).
Proof.
  induction order as [|n order IH]; intros H acc pg.
  - exists acc, pg. cbn. split; [reflexivity|]. split; [intros f []|].
    split; [auto|]. intros _ _. now rewrite app_nil_r.
  - destruct (proj1 (dict_mem_get n ranges) (H n (or_introl eq_refl))) as [p G].
    assert (S : exists v pg1,
      (properties <- dict_getitem n ranges ;;
       value <-
         match properties with
         | numerical min max default _ _ =>
             st (Slider n min max default) ;; ret (PyFloat (slider w n))
         | categorical options _ _ _ =>
             st (Radio n options) ;; ret (PyInt (radio w n))
         end ;;
       ret (dict_set n value acc)) pg = (Done (dict_set n v acc), pg1)).
    { unfold dict_getitem. rewrite G. destruct p; eexists; eexists; reflexivity. }
    destruct S as (v & pg1 & S).
    destruct (IH (fun f I => H f (or_intror I)) (dict_set n v acc) pg1)
      as (fv & pg' & E & M & A & K).
    exists fv, pg'. split; [|split; [|split]].
    + cbn [for_fold]. unfold bind at 1. rewrite S. exact E.
    + intros f [<-|I]; [|now apply M].
      apply A. unfold dict_mem. rewrite dict_get_set, String.eqb_refl. reflexivity.
    + intros f Mf. apply A. unfold dict_mem in *. rewrite dict_get_set.
      destruct (String.eqb f n); [reflexivity | exact Mf].
    + intros ND Z. inversion ND as [|? ? Nn ND']; subst.
      rewrite K.
      * rewrite dict_keys_set_new by (apply Z; now left).
        now rewrite <- app_assoc.
      * exact ND'.
      * intros f I. rewrite dict_get_set.
        destruct (String.eqb_spec f n) as [->|]; [contradiction|].
        apply Z. now right.
Qed.

(** The form raises [KeyError] at the first name that has no entry; what was
    on the page stays there. *)
Lemma form_KeyError (w : World) (ranges : dict FeatureSpec) (order : list string)
    (f : string) :
  In f order -> dict_mem f ranges = false ->
  forall pg, exists g extra,
    form w order ranges pg = (Raised (KeyError g), pg ++ extra) /\
    In g order /\ dict_mem g ranges = false.
Proof.
  unfold form. generalize (@nil (string * pyval)) as acc.
  induction order as [|n order IH]; intros acc I M pg; [destruct I|].
  cbn [for_fold]. unfold bind at 1.
  destruct (dict_get n ranges) as [p|] eqn:G.
  - assert (Nf : In f order).
    { destruct I as [<-|I]; [|exact I].
      unfold dict_mem in M. rewrite G in M. discriminate. }
    unfold dict_getitem. rewrite G. unfold bind at 1, ret at 1.
    destruct p; cbn;
      match goal with
      | |- context [for_fold order ?a _ (pg ++ [?x])] =>
          destruct (IH a Nf M (pg ++ [x])) as (g & extra & E & Ig & Mg);
          exists g, (x :: extra)
      end;
      (split; [rewrite <- app_assoc in E; exact E
              | split; [now right | exact Mg]]).
  - exists n, []. unfold dict_getitem. rewrite G. cbn. rewrite app_nil_r.
    split; [reflexivity|]. split; [now left|].
    unfold dict_mem. now rewrite G.
Qed.

Lemma name_in_In (f : string) (l : list string) :
  name_in f l = true <-> In f l.
Proof.
  unfold name_in. rewrite existsb_exists. split.
  - intros (x & I & E). apply String.eqb_eq in E. now subst.
  - intros I. exists f. split; [exact I | apply String.eqb_refl].
Qed.

(** A run against a model that declares a name the registry does not have
    ends in [KeyError] while the form is rendered, after the warning about
    that name. *)
Lemma script_undefined_feature (w : World) (m : Model) (names : list string)
    (f : string) :
  joblib_load w = Returns m ->
  feature_names_in_ m = Some names ->
  In f names -> dict_mem f feature_ranges = false ->
  exists g pg,
    script w [] = (Raised (KeyError g), pg) /\
    In g names /\ dict_mem g feature_ranges = false /\
    In (SidebarWarningUndefined g) pg.
Proof.
  intros J N I M.
  destruct (reconcile_declared (Some m) feature_ranges names [] N)
    as (ranges & undefined & E & L & _ & W).
  assert (Mr : dict_mem f ranges = false).
  { unfold dict_mem in *. rewrite L.
    destruct (name_in f names); [exact M | reflexivity]. }
  destruct (form_KeyError w ranges names f I Mr
              ([] ++ undefined ++
               map SidebarWarningUnused
                 (filter (fun f => negb (name_in f names)) (dict_keys feature_ranges))))
    as (g & extra & F & Ig & Mg).
  assert (Mgr : dict_mem g feature_ranges = false).
  { unfold dict_mem in *. rewrite L in Mg.
    rewrite (proj2 (name_in_In g names) Ig) in Mg. exact Mg. }
  exists g. eexists. split; [|split; [exact Ig | split; [exact Mgr|]]].
  - unfold script. unfold bind at 1, load_model, try_except.
    unfold bind at 1, call. rewrite J. unfold ret at 1.
    unfold bind at 1. rewrite E. cbn [fst snd].
    unfold bind at 1. rewrite F. reflexivity.
  - cbn [app]. apply in_or_app. left. apply in_or_app. left.
    apply W; assumption.
Qed.

(** ** The model input: order, validation, missing features *)

(** C1 (as amended): when the model declares its feature names and each of
    them has a value, the frame built for the model has its columns exactly
    in the declared order, and a raw input with the same items in another
    key order builds the same frame.  When the model declares no names the
    columns are in the key order of the raw input itself; that is the
    registry's declaration order for the dictionary the form fills in. *)
Theorem build_vector_column_order (m : Model) (fv : dict pyval) (pg : page) :
  (forall names, feature_names_in_ m = Some names ->
     forall f, In f names -> dict_mem f fv = true) ->
  (exists df,
     build_vector m fv pg = (Done df, pg) /\
     columns df = match feature_names_in_ m with
                  | Some names => names
                  | None => dict_keys fv
                  end /\
     (feature_names_in_ m <> None ->
      forall fv', NoDup (dict_keys fv) -> Permutation fv fv' ->
                  build_vector m fv' pg = (Done df, pg))) /\
  (feature_names_in_ m = None ->
   forall (w : World) (registry : dict FeatureSpec) (pg0 : page),
     NoDup (dict_keys registry) ->
     exists form_values pg1,
       form w (required_order (Some m) registry) registry pg0
         = (Done form_values, pg1) /\
       build_vector m form_values pg = (Done form_values, pg) /\
       columns form_values = required_order (Some m) registry).
Proof.
  intros H. split.
  - destruct (feature_names_in_ m) as [names|] eqn:N.
    + specialize (H names eq_refl).
      destruct (select_present names fv H) as (r & S & C & _).
      exists r. split; [|split].
      * rewrite (build_vector_named m names fv pg N H). unfold call. now rewrite S.
      * exact C.
      * intros _ fv' ND P.
        pose proof (dict_get_Permutation fv fv' ND P) as E.
        rewrite (build_vector_named m names fv' pg N).
        -- unfold call. now rewrite <- (select_ext names fv fv' E), S.
        -- intros f I. unfold dict_mem. rewrite <- E. apply (H f I).
    + exists fv. split; [|split].
      * now apply build_vector_unnamed.
      * reflexivity.
      * congruence.
  - intros N w registry pg0 ND.
    unfold required_order, declared_names. rewrite N.
    destruct (form_total w registry (dict_keys registry)
                (fun f I => eq_trans (eq_sym (name_in_keys f registry))
                                     (proj2 (name_in_In f (dict_keys registry)) I))
                [] pg0)
      as (fv0 & pg1 & E & _ & _ & K).
    exists fv0, pg1. split; [exact E|]. split.
    + now apply build_vector_unnamed.
    + apply K; [exact ND | reflexivity].
Qed.

(** The scenario's patient, keys reversed, against a model trained on
    [trained_order]. *)
Lemma build_vector_column_order_witness :
  exists df,
    build_vector (stub_model (Some trained_order)) (rev scenario_input) [] = (Done df, []) /\
    columns df = trained_order /\
    (Some trained_order <> None ->
     forall fv', NoDup (dict_keys (rev scenario_input)) ->
                 Permutation (rev scenario_input) fv' ->
                 build_vector (stub_model (Some trained_order)) fv' [] = (Done df, [])).
Proof.
  apply (build_vector_column_order (stub_model (Some trained_order))
           (rev scenario_input) []).
  intros names [= <-] f I. cbn in I.
  repeat (destruct I as [<-|I]; [reflexivity|]). destruct I.
Defined.

(** C1 (as stated) fails for a model without declared names: every required
    name has a value, yet the columns follow the raw input, not the
    registry, and reversing the raw input reverses them. *)
Lemma column_order_counterexample :
  forallb (fun f => dict_mem f scenario_input)
          (required_order (Some (stub_model None)) feature_ranges) = true /\
  build_vector (stub_model None) scenario_input [] = (Done scenario_input, []) /\
  columns scenario_input <> required_order (Some (stub_model None)) feature_ranges /\
  Permutation scenario_input (rev scenario_input) /\
  build_vector (stub_model None) (rev scenario_input) []
    = (Done (rev scenario_input), []) /\
  columns (rev scenario_input) <> columns scenario_input.
Proof.
  split; [reflexivity|]. split; [reflexivity|]. split; [discriminate|].
  split; [apply Permutation_rev|]. split; [reflexivity | discriminate].
Qed.

(** The frame [df[names]] answers every lookup as [df] does: under each of
    its columns it holds the value [df] has there. *)
Lemma select_lookup (names : list string) (df r : DataFrame) :
  select names df = Returns r ->
  forall f, In f (columns r) -> dict_get f r = dict_get f df.
Proof.
  revert r. induction names as [|n names IH]; intros r S f I; cbn in S.
  - injection S as <-. destruct I.
  - destruct (dict_get n df) as [v|] eqn:G; [|discriminate].
    destruct (select names df) as [r'|e]; [|discriminate].
    injection S as <-. cbn [dict_get].
    destruct (String.eqb_spec f n) as [->|N]; [now rewrite G|].
    apply (IH r' eq_refl). destruct I as [E|I]; [cbn in E; congruence | exact I].
Qed.

(** C3 (as amended): the script has no test of bounds or options and no
    coercion to the declared kind.  Whenever every declared name has a value
    the frame is built, whatever the values are; its columns are the declared
    names in order (the raw input's keys when the model declares none), and
    under each column it holds the very value the raw input has under that
    name. *)
Theorem build_vector_no_validation (m : Model) (fv : dict pyval) (pg : page) :
  (forall names, feature_names_in_ m = Some names ->
     forall f, In f names -> dict_mem f fv = true) ->
  exists df,
    build_vector m fv pg = (Done df, pg) /\
    columns df = match feature_names_in_ m with
                 | Some names => names
                 | None => dict_keys fv
                 end /\
    (forall f, In f (columns df) -> dict_get f df = dict_get f fv) /\
    (forall f v, In (f, v) df -> In (f, v) fv).
Proof.
  intros H. destruct (feature_names_in_ m) as [names|] eqn:N.
  - specialize (H names eq_refl).
    destruct (select_present names fv H) as (r & S & C & G).
    exists r. split; [|split; [|split]].
    + rewrite (build_vector_named m names fv pg N H). unfold call. now rewrite S.
    + exact C.
    + apply (select_lookup names fv r S).
    + intros f v I. apply dict_get_In. apply G. exact I.
  - exists fv. split; [now apply build_vector_unnamed|].
    split; [reflexivity|]. split; auto.
Qed.

(** The patient with an age of 200, against a model trained on
    [trained_order]. *)
Lemma build_vector_no_validation_witness :
  exists df,
    build_vector (stub_model (Some trained_order)) out_of_bounds_input []
      = (Done df, []) /\
    columns df = trained_order /\
    (forall f, In f (columns df) ->
               dict_get f df = dict_get f out_of_bounds_input) /\
    (forall f v, In (f, v) df -> In (f, v) out_of_bounds_input).
Proof.
  apply (build_vector_no_validation (stub_model (Some trained_order))
           out_of_bounds_input []).
  intros names [= <-] f I. cbn in I.
  repeat (destruct I as [<-|I]; [reflexivity|]). destruct I.
Defined.

(** C3 (as stated) fails: an age of 200 is outside the declared 25-90, the
    frame is built all the same and the model is asked for a prediction. *)
Lemma invalid_value_counterexample :
  option_map (fun properties => spec_within_declared properties (PyFloat 200))
             (dict_get "Age" feature_ranges) = Some false /\
  dict_get "Age" out_of_bounds_input = Some (PyFloat 200) /\
  build_vector (stub_model (Some trained_order)) out_of_bounds_input []
    = (Done out_of_bounds_input, []) /\
  predict_section
    (stub_world (Returns (stub_model (Some trained_order))) true failing_explainer)
    (stub_model (Some trained_order)) out_of_bounds_input []
    = (Done tt,
       [ResultHeader; RiskCard LowRisk; SurvivalCard 92; DeathCard 8; Gauge 8;
        ExplanationHeader; PredictionText 8;
        ShapError (Error "Model type not yet supported"); ShapWarning]).
Proof. repeat split. Qed.

(** C4 (as amended): when the model declares its feature names and the raw
    input lacks one of them, the run stops with an error that lists every
    missing name, that one among them; nothing else is rendered and the
    model is not called. *)
Theorem missing_feature_stops (w : World) (m : Model) (names : list string)
    (fv : dict pyval) (pg : page) (f : string) :
  feature_names_in_ m = Some names ->
  In f names ->
  dict_mem f fv = false ->
  exists missing,
    In f missing /\
    build_vector m fv pg = (Stopped, pg ++ [MissingFeaturesError missing]) /\
    predict_section w m fv pg
      = (Stopped, pg ++ [ResultHeader; MissingFeaturesError missing]).
Proof.
  intros N I M.
  pose proof (missing_features_In names (DataFrame_of_row fv) f I M) as IM.
  exists (filter (fun f => negb (name_in f (columns (DataFrame_of_row fv)))) names).
  split; [exact IM|].
  assert (B : forall pg0, build_vector m fv pg0 =
            (Stopped, pg0 ++ [MissingFeaturesError
               (filter (fun f => negb (name_in f (columns (DataFrame_of_row fv)))) names)])).
  { intros pg0. unfold build_vector. rewrite N.
    destruct (filter _ names) as [|g l]; [destruct IM | reflexivity]. }
  split; [apply B|].
  unfold predict_section, bind, st. rewrite B. now rewrite <- app_assoc.
Qed.

(** The scenario's patient without an age, against a model that declares
    [trained_order]. *)
Lemma missing_feature_stops_witness :
  exists missing,
    In "Age" missing /\
    build_vector (stub_model (Some trained_order)) (tl scenario_input) []
      = (Stopped, [] ++ [MissingFeaturesError missing]) /\
    predict_section
      (stub_world (Returns (stub_model (Some trained_order))) true failing_explainer)
      (stub_model (Some trained_order)) (tl scenario_input) []
      = (Stopped, [] ++ [ResultHeader; MissingFeaturesError missing]).
Proof.
  apply (missing_feature_stops
           (stub_world (Returns (stub_model (Some trained_order))) true failing_explainer)
           (stub_model (Some trained_order)) trained_order (tl scenario_input) [] "Age").
  - reflexivity.
  - now left.
  - reflexivity.
Defined.

(** C4 (as stated) fails for a model without declared names: "Age" is
    required and has no value, nothing is reported and the model is called
    on the six values that are there. *)
Lemma missing_feature_counterexample :
  name_in "Age" (required_order (Some (stub_model None)) feature_ranges) = true /\
  dict_mem "Age" (tl scenario_input) = false /\
  build_vector (stub_model None) (tl scenario_input) []
    = (Done (tl scenario_input), []) /\
  predict_section
    (stub_world (Returns (stub_model None)) true failing_explainer)
    (stub_model None) (tl scenario_input) []
    = (Done tt,
       [ResultHeader; RiskCard LowRisk; SurvivalCard 92; DeathCard 8; Gauge 8;
        ExplanationHeader; PredictionText 8;
        ShapError (Error "Model type not yet supported"); ShapWarning]).
Proof. repeat split. Qed.

(** ** Prediction and attribution *)

(** The attribution block either raises before it renders anything, or
    renders the plot of the selected slice and its caption. *)
Lemma shap_section_outcome (w : World) (m : Model) (df : DataFrame) :
  (exists e, forall pg, shap_section w m df pg = (Raised e, pg)) \/
  (exists selected,
     forall pg, shap_section w m df pg
                = (Done tt, pg ++ [WaterfallImage selected; WaterfallCaption])).
Proof.
  unfold shap_section, bind, call, st.
  destruct (shap_Explainer w m) as [explainer|e]; [|left; exists e; reflexivity].
  destruct (explainer df) as [shap_values|e]; [|left; exists e; reflexivity].
  destruct (shap_select shap_values) as [selected|e]; [|left; exists e; reflexivity].
  destruct (shap_waterfall w selected) as [[]|e]; [|left; exists e; reflexivity].
  right. exists selected. intros pg. now rewrite <- app_assoc.
Qed.

Lemma shap_section_raised (w : World) (m : Model) (df : DataFrame)
    (e : Exception) (pg0 : page) :
  fst (shap_section w m df pg0) = Raised e ->
  forall pg, shap_section w m df pg = (Raised e, pg).
Proof.
  intros H. destruct (shap_section_outcome w m df) as [[e' R]|[sel D]].
  - rewrite R in H. cbn in H. injection H as ->. exact R.
  - rewrite D in H. discriminate H.
Qed.

Lemma shap_section_done (w : World) (m : Model) (df : DataFrame) (pg0 : page) :
  fst (shap_section w m df pg0) = Done tt ->
  exists selected,
    forall pg, shap_section w m df pg
               = (Done tt, pg ++ [WaterfallImage selected; WaterfallCaption]).
Proof.
  intros H. destruct (shap_section_outcome w m df) as [[e' R]|[sel D]].
  - rewrite R in H. discriminate H.
  - exists sel. exact D.
Qed.

(** Once the frame is built, the rest of the result column is the outer
    [try]. *)
Lemma predict_section_built (w : World) (m : Model) (fv : dict pyval)
    (pg : page) (df : DataFrame) :
  build_vector m fv (pg ++ [ResultHeader]) = (Done df, pg ++ [ResultHeader]) ->
  predict_section w m fv pg
  = try_except (predict_and_explain w m df)
      (fun e => st (PredictionError e) ;; st PredictionWarning)
      (pg ++ [ResultHeader]).
Proof.
  intros B. unfold predict_section. unfold bind at 1, st at 1.
  unfold bind at 1. now rewrite B.
Qed.

(** When the model answers, the cards are rendered and the attribution
    block runs under its own handler. *)
Lemma predict_and_explain_answered (w : World) (m : Model) (df : DataFrame)
    (labels : list Z) (lbl : Z) (probabilities : list (list float))
    (row : list float) (p1 : float) (pg : page) :
  predict m (df_values df) = Returns labels ->
  getitem labels 0 = Returns lbl ->
  predict_proba m (df_values df) = Returns probabilities ->
  getitem probabilities 0 = Returns row ->
  getitem row 1 = Returns p1 ->
  predict_and_explain w m df pg
  = try_except (shap_section w m df)
      (fun shap_error => st (ShapError shap_error) ;; st ShapWarning)
      (pg ++ [RiskCard (risk_category (p1 * 100));
              SurvivalCard (100 - p1 * 100);
              DeathCard (p1 * 100);
              Gauge (p1 * 100);
              ExplanationHeader;
              PredictionText (p1 * 100)]).
Proof.
  intros P L Q R I. unfold predict_and_explain.
  unfold bind at 1, call at 1. rewrite P.
  unfold bind at 1, call at 1. rewrite L.
  unfold bind at 1, call at 1. rewrite Q.
  unfold bind at 1, call at 1. rewrite R.
  unfold bind at 1, call at 1. rewrite I.
  unfold bind at 1, show_prediction, bind, st.
  repeat rewrite <- app_assoc. reflexivity.
Qed.

(** The result column never ends in an exception: it completes or stops. *)
Lemma predict_section_never_raises (w : World) (m : Model) (fv : dict pyval)
    (pg : page) (e : Exception) :
  fst (predict_section w m fv pg) <> Raised e.
Proof.
  destruct (build_vector_outcome m fv (pg ++ [ResultHeader])) as [[df B]|[ms B]].
  - rewrite (predict_section_built w m fv pg df B).
    unfold try_except.
    destruct (predict_and_explain w m df (pg ++ [ResultHeader])) as [[[]|e'|] pg'];
      cbn; discriminate.
  - unfold predict_section. unfold bind at 1, st at 1. unfold bind at 1.
    rewrite B. cbn. discriminate.
Qed.

(** C6: the death probability on the page is the model's probability at
    class index 1 times 100, with the tier derived from it; for the
    scenario's patient and any model that answers [0.92, 0.08], the page
    shows a death probability of 8.0, a survival probability of 92.0 and the
    low tier. *)
Theorem end_to_end_death_probability :
  (forall (w : World) (m : Model) (fv : dict pyval) (pg : page) (df : DataFrame)
          (labels : list Z) (lbl : Z) (probabilities : list (list float))
          (row : list float) (p1 : float),
     build_vector m fv (pg ++ [ResultHeader]) = (Done df, pg ++ [ResultHeader]) ->
     predict m (df_values df) = Returns labels ->
     getitem labels 0 = Returns lbl ->
     predict_proba m (df_values df) = Returns probabilities ->
     getitem probabilities 0 = Returns row ->
     getitem row 1 = Returns p1 ->
     exists rest,
       predict_section w m fv pg
       = (Done tt,
          pg ++ [ResultHeader;
                 RiskCard (risk_category (p1 * 100));
                 SurvivalCard (100 - p1 * 100);
                 DeathCard (p1 * 100);
                 Gauge (p1 * 100);
                 ExplanationHeader;
                 PredictionText (p1 * 100)] ++ rest)) /\
  (forall (w : World) (m : Model) (lbl : Z),
     (forall X, predict m X = Returns [lbl]) ->
     (forall X, predict_proba m X = Returns [[0.92; 0.08]%float]) ->
     (forall names, feature_names_in_ m = Some names ->
        forall f, In f names -> dict_mem f scenario_input = true) ->
     exists rest,
       predict_section w m scenario_input []
       = (Done tt,
          [ResultHeader; RiskCard LowRisk; SurvivalCard 92; DeathCard 8;
           Gauge 8; ExplanationHeader; PredictionText 8] ++ rest)).
Proof.
  assert (G : forall (w : World) (m : Model) (fv : dict pyval) (pg : page)
          (df : DataFrame) (labels : list Z) (lbl : Z)
          (probabilities : list (list float)) (row : list float) (p1 : float),
     build_vector m fv (pg ++ [ResultHeader]) = (Done df, pg ++ [ResultHeader]) ->
     predict m (df_values df) = Returns labels ->
     getitem labels 0 = Returns lbl ->
     predict_proba m (df_values df) = Returns probabilities ->
     getitem probabilities 0 = Returns row ->
     getitem row 1 = Returns p1 ->
     exists rest,
       predict_section w m fv pg
       = (Done tt,
          pg ++ [ResultHeader;
                 RiskCard (risk_category (p1 * 100));
                 SurvivalCard (100 - p1 * 100);
                 DeathCard (p1 * 100);
                 Gauge (p1 * 100);
                 ExplanationHeader;
                 PredictionText (p1 * 100)] ++ rest)).
  { intros w m fv pg df labels lbl probabilities row p1 B P L Q R I.
    rewrite (predict_section_built w m fv pg df B).
    unfold try_except at 1.
    rewrite (predict_and_explain_answered w m df labels lbl probabilities row p1
               _ P L Q R I).
    unfold try_except.
    destruct (shap_section_outcome w m df) as [[e S]|[sel S]]; rewrite S.
    - exists [ShapError e; ShapWarning]. unfold bind, st.
      repeat rewrite <- app_assoc. reflexivity.
    - exists [WaterfallImage sel; WaterfallCaption].
      repeat rewrite <- app_assoc. reflexivity. }
  split; [exact G|].
  intros w m lbl P Q N.
  destruct (build_vector_present m scenario_input ([] ++ [ResultHeader]) N)
    as (df & B).
  destruct (G w m scenario_input [] df [lbl] lbl [[0.92; 0.08]%float]
              [0.92; 0.08]%float 0.08%float B (P _) eq_refl (Q _) eq_refl eq_refl)
    as (rest & E).
  exists rest. exact E.
Qed.

(** The scenario against the stub classifier, with a flat attribution. *)
Lemma end_to_end_death_probability_witness :
  exists rest,
    predict_section
      (stub_world (Returns (stub_model None)) true (stub_explainer flat_values))
      (stub_model None) scenario_input []
    = (Done tt,
       [ResultHeader; RiskCard LowRisk; SurvivalCard 92; DeathCard 8;
        Gauge 8; ExplanationHeader; PredictionText 8] ++ rest).
Proof.
  apply (proj2 end_to_end_death_probability
           (stub_world (Returns (stub_model None)) true (stub_explainer flat_values))
           (stub_model None) 0%Z).
  - reflexivity.
  - reflexivity.
  - intros names N. discriminate N.
Defined.

(** C7: an exception the model raises in [predict] or [predict_proba] is
    caught by the outer handler: the run completes, and after the header the
    page holds the error message with the exception and the advice, and no
    result. *)
Theorem prediction_error_caught (w : World) (m : Model) (fv : dict pyval)
    (pg : page) (df : DataFrame) (e : Exception) :
  build_vector m fv (pg ++ [ResultHeader]) = (Done df, pg ++ [ResultHeader]) ->
  (predict m (df_values df) = Raises e \/
   exists labels lbl,
     predict m (df_values df) = Returns labels /\
     getitem labels 0 = Returns lbl /\
     predict_proba m (df_values df) = Raises e) ->
  predict_section w m fv pg
  = (Done tt, pg ++ [ResultHeader; PredictionError e; PredictionWarning]).
Proof.
  intros B H. rewrite (predict_section_built w m fv pg df B).
  unfold try_except, predict_and_explain.
  destruct H as [P|(labels & lbl & P & L & Q)].
  - unfold bind at 1, call at 1. rewrite P.
    unfold bind, st. repeat rewrite <- app_assoc. reflexivity.
  - unfold bind at 1, call at 1. rewrite P.
    unfold bind at 1, call at 1. rewrite L.
    unfold bind at 1, call at 1. rewrite Q.
    unfold bind, st. repeat rewrite <- app_assoc. reflexivity.
Qed.

(** The scenario's patient without an age, against a classifier that
    declares no names and rejects the six values. *)
Lemma prediction_error_caught_witness :
  predict_section
    (stub_world (Returns (failing_model None)) true (stub_explainer flat_values))
    (failing_model None) (tl scenario_input) []
  = (Done tt,
     [] ++ [ResultHeader;
            PredictionError (Error "X has 6 features, but RandomForestClassifier is expecting 7 features as input.");
            PredictionWarning]).
Proof.
  apply (prediction_error_caught
           (stub_world (Returns (failing_model None)) true (stub_explainer flat_values))
           (failing_model None) (tl scenario_input) [] (tl scenario_input)).
  - reflexivity.
  - left. reflexivity.
Defined.

(** C8: when the model answers and the attribution block raises, the inner
    handler catches it: the run completes, the cards of the prediction are
    on the page exactly as they are when the attribution succeeds, followed
    by the attribution's error message and warning; the handler of the
    prediction stage is not entered. *)
Theorem attribution_failure_keeps_prediction (w : World) (m : Model)
    (fv : dict pyval) (pg : page) (df : DataFrame)
    (labels : list Z) (lbl : Z) (probabilities : list (list float))
    (row : list float) (p1 : float) (e : Exception) :
  build_vector m fv (pg ++ [ResultHeader]) = (Done df, pg ++ [ResultHeader]) ->
  predict m (df_values df) = Returns labels ->
  getitem labels 0 = Returns lbl ->
  predict_proba m (df_values df) = Returns probabilities ->
  getitem probabilities 0 = Returns row ->
  getitem row 1 = Returns p1 ->
  fst (shap_section w m df []) = Raised e ->
  predict_section w m fv pg
  = (Done tt,
     pg ++ [ResultHeader;
            RiskCard (risk_category (p1 * 100));
            SurvivalCard (100 - p1 * 100);
            DeathCard (p1 * 100);
            Gauge (p1 * 100);
            ExplanationHeader;
            PredictionText (p1 * 100)]
        ++ [ShapError e; ShapWarning]) /\
  (forall w' : World,
     fst (shap_section w' m df []) = Done tt ->
     exists selected,
       predict_section w' m fv pg
       = (Done tt,
          pg ++ [ResultHeader;
                 RiskCard (risk_category (p1 * 100));
                 SurvivalCard (100 - p1 * 100);
                 DeathCard (p1 * 100);
                 Gauge (p1 * 100);
                 ExplanationHeader;
                 PredictionText (p1 * 100)]
             ++ [WaterfallImage selected; WaterfallCaption])).
Proof.
  intros B P L Q R I S. split.
  - rewrite (predict_section_built w m fv pg df B).
    unfold try_except at 1.
    rewrite (predict_and_explain_answered w m df labels lbl probabilities row p1
               _ P L Q R I).
    unfold try_except. rewrite (shap_section_raised w m df e [] S).
    unfold bind, st. repeat rewrite <- app_assoc. reflexivity.
  - intros w' S'. destruct (shap_section_done w' m df [] S') as [sel D].
    exists sel. rewrite (predict_section_built w' m fv pg df B).
    unfold try_except at 1.
    rewrite (predict_and_explain_answered w' m df labels lbl probabilities row p1
               _ P L Q R I).
    unfold try_except. rewrite D.
    repeat rewrite <- app_assoc. reflexivity.
Qed.

(** The scenario against the stub classifier and an attribution engine that
    does not support it. *)
Lemma attribution_failure_keeps_prediction_witness :
  predict_section
    (stub_world (Returns (stub_model None)) true failing_explainer)
    (stub_model None) scenario_input []
  = (Done tt,
     [] ++ [ResultHeader;
            RiskCard (risk_category (0.08 * 100));
            SurvivalCard (100 - 0.08 * 100);
            DeathCard (0.08 * 100);
            Gauge (0.08 * 100);
            ExplanationHeader;
            PredictionText (0.08 * 100)]
        ++ [ShapError (Error "Model type not yet supported"); ShapWarning]) /\
  (forall w' : World,
     fst (shap_section w' (stub_model None) scenario_input []) = Done tt ->
     exists selected,
       predict_section w' (stub_model None) scenario_input []
       = (Done tt,
          [] ++ [ResultHeader;
                 RiskCard (risk_category (0.08 * 100));
                 SurvivalCard (100 - 0.08 * 100);
                 DeathCard (0.08 * 100);
                 Gauge (0.08 * 100);
                 ExplanationHeader;
                 PredictionText (0.08 * 100)]
             ++ [WaterfallImage selected; WaterfallCaption])).
Proof.
  apply (attribution_failure_keeps_prediction
           (stub_world (Returns (stub_model None)) true failing_explainer)
           (stub_model None) scenario_input [] scenario_input
           [0%Z] 0%Z [[0.92; 0.08]%float] [0.92; 0.08]%float 0.08%float
           (Error "Model type not yet supported"));
    reflexivity.
Defined.

(** ** Attribution shape dispatch *)

Lemma nth_error_firstn_lt {A : Type} (l : list A) (n j : nat) :
  j < n -> nth_error (firstn n l) j = nth_error l j.
Proof.
  revert n j. induction l as [|x l IH]; intros n j H.
  - now rewrite firstn_nil.
  - destruct n as [|n]; [lia|]. destruct j as [|j]; cbn; [reflexivity|].
    apply IH. lia.
Qed.

(** A block of one element is that element. *)
Lemma slice_one (l : list float) (i : nat) (x : float) :
  nth_error l i = Some x -> slice i 1 l = [x].
Proof.
  unfold slice. revert i. induction l as [|y l IH]; intros i H.
  - destruct i; discriminate.
  - destruct i as [|i]; cbn in *.
    + injection H as ->. reflexivity.
    + apply IH. exact H.
Qed.

(** Reading index 1 of every pair of a list of [f] blocks of [c] elements. *)
Lemma class_1_column (l : list float) (c f : nat) :
  1 < c -> f * c <= List.length l ->
  forall j, j < f ->
    nth_error (flat_map (fun j => slice ((j * c + 1) * 1) 1 l) (seq 0 f)) j
    = nth_error l (j * c + 1).
Proof.
  intros Hc Hl.
  assert (E : forall k n,
    k + n <= f ->
    flat_map (fun j => slice ((j * c + 1) * 1) 1 l) (seq k n)
    = map (fun j => nth (j * c + 1) l 0%float) (seq k n)).
  { intros k n. revert k.
    induction n as [|n IH]; intros k H; cbn [seq flat_map map]; [reflexivity|].
    rewrite IH by lia.
    rewrite Nat.mul_1_r.
    assert (B : k * c + 1 < List.length l) by nia.
    destruct (nth_error l (k * c + 1)) as [x|] eqn:N.
    - rewrite (slice_one l _ x N). cbn [app]. f_equal.
      symmetry. apply nth_error_nth with (d := 0%float) in N. exact N.
    - apply nth_error_None in N. lia. }
  intros j Hj. rewrite (E 0 f) by lia.
  rewrite nth_error_map, nth_error_seq.
  destruct (Nat.ltb_spec j f) as [_|]; [|lia]. cbn.
  assert (B : j * c + 1 < List.length l) by nia.
  symmetry. apply nth_error_nth'. exact B.
Qed.

(** C9: a per-class output (instances x features x classes) is plotted at
    class index 1 of the first instance; a flat output (instances x
    features) is plotted as the first instance's row, with no class index. *)
Theorem shap_select_dispatch (shap_values : Explanation) :
  well_shaped (values shap_values) ->
  (forall n f c,
     shape (values shap_values) = [n; f; c] -> 0 < n -> 1 < c ->
     exists selected,
       shap_select shap_values = Returns selected /\
       shape (values selected) = [f] /\
       forall j, j < f ->
         at1 (values selected) j = at3 (values shap_values) 0 j 1) /\
  (forall n f,
     shape (values shap_values) = [n; f] -> 0 < n ->
     exists selected,
       shap_select shap_values = Returns selected /\
       shape (values selected) = [f] /\
       forall j, j < f ->
         at1 (values selected) j = at2 (values shap_values) 0 j).
Proof.
  destruct shap_values as [[sh dt]]. unfold well_shaped. cbn.
  intros WS. split.
  - intros n f c -> Hn Hc. cbn in WS.
    unfold shap_select, ndim, ndarray_0_all_1. cbn.
    destruct (Nat.eqb_spec n 0) as [|_]; [lia|].
    destruct (Nat.leb_spec c 1) as [|_]; [lia|]. cbn.
    eexists. split; [reflexivity|]. split; [reflexivity|].
    intros j Hj. unfold at1, at3. cbn [shape data values].
    apply class_1_column; [exact Hc | nia | exact Hj].
  - intros n f -> Hn. cbn in WS.
    unfold shap_select, ndim, ndarray_0. cbn.
    destruct (Nat.eqb_spec n 0) as [|_]; [lia|]. cbn.
    eexists. split; [reflexivity|]. split; [reflexivity|].
    intros j Hj. unfold at1, at2, slice. cbn [shape data values skipn].
    apply nth_error_firstn_lt. lia.
Qed.

(** The two stub outputs of seven features. *)
Lemma shap_select_dispatch_witness :
  (forall n f c,
     shape per_class_values = [n; f; c] -> 0 < n -> 1 < c ->
     exists selected,
       shap_select {| values := per_class_values |} = Returns selected /\
       shape (values selected) = [f] /\
       forall j, j < f ->
         at1 (values selected) j = at3 per_class_values 0 j 1) /\
  (forall n f,
     shape per_class_values = [n; f] -> 0 < n ->
     exists selected,
       shap_select {| values := per_class_values |} = Returns selected /\
       shape (values selected) = [f] /\
       forall j, j < f ->
         at1 (values selected) j = at2 per_class_values 0 j).
Proof.
  apply (shap_select_dispatch {| values := per_class_values |}).
  reflexivity.
Defined.

Example shap_select_per_class :
  shap_select {| values := per_class_values |}
  = Returns {| values := {| shape := [7]; data := [1; 2; 3; 4; 5; 6; 7]%float |} |}.
Proof. reflexivity. Qed.

Example shap_select_flat :
  shap_select {| values := flat_values |}
  = Returns {| values := {| shape := [7]; data := [1; 2; 3; 4; 5; 6; 7]%float |} |}.
Proof. reflexivity. Qed.

(** ** A model trained on a feature the form does not define *)

(** C10: against a model that declares "Age", "BMI" and "CEA", the run warns
    that "BMI" is not defined and that five registry features are not
    required, renders the slider of "Age" and ends in [KeyError "BMI"]: no
    input vector is built, with or without "BMI". *)
Theorem undefined_feature_raises :
  script (stub_world (Returns bmi_model) true (stub_explainer flat_values)) []
  = (Raised (KeyError "BMI"),
     [SidebarWarningUndefined "BMI";
      SidebarWarningUnused "Intraoperative Blood Loss";
      SidebarWarningUnused "Albumin";
      SidebarWarningUnused "TNM Stage";
      SidebarWarningUnused "Max Tumor Diameter";
      SidebarWarningUnused "Lymphovascular Invasion";
      Slider "Age" 25 90 76]).
Proof. reflexivity. Qed.

(** The same model with "BMI" left out is served: the reconciliation by
    itself drops the registry features the model does not declare. *)
Example declared_subset_runs :
  script (stub_world (Returns (stub_model (Some ["Age"; "CEA"]))) true
            (stub_explainer flat_values)) []
  = (Done tt,
     [SidebarWarningUnused "Intraoperative Blood Loss";
      SidebarWarningUnused "Albumin";
      SidebarWarningUnused "TNM Stage";
      SidebarWarningUnused "Max Tumor Diameter";
      SidebarWarningUnused "Lymphovascular Invasion";
      Slider "Age" 25 90 76;
      Slider "CEA" 0 150 8.68;
      FeatureTable [("Age", "患者年龄", "岁"); ("CEA", "癌胚抗原水平", "ng/ml")];
      ResultHeader; RiskCard LowRisk; SurvivalCard 92; DeathCard 8; Gauge 8;
      ExplanationHeader; PredictionText 8;
      WaterfallImage
        {| values := {| shape := [7]; data := [1; 2; 3; 4; 5; 6; 7]%float |} |};
      WaterfallCaption]).
Proof. reflexivity. Qed.

(** The end-to-end scenario as a whole run: the registry's order of widgets,
    the stub classifier and a flat attribution. *)
Example script_end_to_end :
  script (stub_world (Returns (stub_model None)) true (stub_explainer flat_values)) []
  = (Done tt,
     [Slider "Intraoperative Blood Loss" 0 800 50;
      Slider "CEA" 0 150 8.68;
      Slider "Albumin" 1 80 38.6;
      Radio "TNM Stage" [1; 2; 3; 4]%Z;
      Slider "Age" 25 90 76;
      Slider "Max Tumor Diameter" 0.2 20 4;
      Radio "Lymphovascular Invasion" [0; 1]%Z;
      FeatureTable
        [("Intraoperative Blood Loss", "手术期间的出血量 (ml)", "ml");
         ("CEA", "癌胚抗原水平", "ng/ml");
         ("Albumin", "血清白蛋白水平", "g/L");
         ("TNM Stage", "肿瘤分期", "无");
         ("Age", "患者年龄", "岁");
         ("Max Tumor Diameter", "肿瘤最大直径", "cm");
         ("Lymphovascular Invasion", "淋巴血管侵犯 (0=否, 1=是)", "无")];
      ResultHeader; RiskCard LowRisk; SurvivalCard 92; DeathCard 8; Gauge 8;
      ExplanationHeader; PredictionText 8;
      WaterfallImage
        {| values := {| shape := [7]; data := [1; 2; 3; 4; 5; 6; 7]%float |} |};
      WaterfallCaption]).
Proof. reflexivity. Qed.

(** ** The form and the table, entry by entry *)

(** The loop of the form over entries that are all in the dictionary. *)
Lemma form_loop_entries (w : World) (ranges : dict FeatureSpec)
    (entries : list (string * FeatureSpec)) :
  (forall e, In e entries -> dict_get (fst e) ranges = Some (snd e)) ->
  forall (acc : dict pyval) (pg : page),
    for_fold (map fst entries) acc
      (fun feature_values feature =>
         properties <- dict_getitem feature ranges ;;
         value <-
           match properties with
           | numerical min max default _ _ =>
               st (Slider feature min max default) ;;
               ret (PyFloat (slider w feature))
           | categorical options _ _ _ =>
               st (Radio feature options) ;;
               ret (PyInt (radio w feature))
           end ;;
         ret (dict_set feature value feature_values)) pg
    = (Done (fold_left (fun feature_values entry =>
                          dict_set (fst entry) (widget_value w entry) feature_values)
                       entries acc),
       pg ++ map widget_of entries).
Proof.
  induction entries as [|[f p] entries IH]; intros H acc pg.
  - cbn. now rewrite app_nil_r.
  - cbn [map fst for_fold fold_left].
    pose proof (H (f, p) (or_introl eq_refl)) as G. cbn in G.
    unfold bind at 1. unfold bind at 1. unfold dict_getitem. rewrite G.
    replace (pg ++ widget_of (f, p) :: map widget_of entries)
      with ((pg ++ [widget_of (f, p)]) ++ map widget_of entries)
      by (now rewrite <- app_assoc).
    destruct p;
      exact (IH (fun e I => H e (or_intror I)) _ _).
Qed.

(** A key no later entry writes keeps its value. *)
Lemma form_values_untouched (w : World) (entries : list (string * FeatureSpec))
    (f : string) :
  ~ In f (map fst entries) ->
  forall acc,
    dict_get f (fold_left (fun feature_values entry =>
                             dict_set (fst entry) (widget_value w entry) feature_values)
                          entries acc)
    = dict_get f acc.
Proof.
  induction entries as [|e entries IH]; intros N acc; [reflexivity|].
  cbn [fold_left]. rewrite IH.
  - rewrite dict_get_set. destruct (String.eqb_spec f (fst e)) as [E|_]; [|reflexivity].
    exfalso. apply N. left. now symmetry.
  - intros I. apply N. now right.
Qed.

Lemma form_values_lookup (w : World) (ranges : dict FeatureSpec)
    (entries : list (string * FeatureSpec)) :
  (forall e, In e entries -> dict_get (fst e) ranges = Some (snd e)) ->
  forall acc e, In e entries ->
    dict_get (fst e)
      (fold_left (fun feature_values entry =>
                    dict_set (fst entry) (widget_value w entry) feature_values)
                 entries acc)
    = Some (widget_value w e).
Proof.
  induction entries as [|e0 entries IH]; intros H acc e I; [destruct I|].
  cbn [fold_left].
  destruct (in_dec string_dec (fst e) (map fst entries)) as [Later|Last].
  - apply in_map_iff in Later. destruct Later as (e' & E & I').
    assert (e' = e).
    { pose proof (H e' (or_intror I')) as G'. pose proof (H e I) as G.
      rewrite E, G in G'. destruct e, e'; cbn in *. congruence. }
    subst e'. apply IH; [intros x Ix; apply H; now right | exact I'].
  - destruct I as [->|I].
    + rewrite form_values_untouched by exact Last.
      rewrite dict_get_set, String.eqb_refl. reflexivity.
    + exfalso. apply Last. apply in_map. exact I.
Qed.

Lemma form_values_keys (w : World) (entries : list (string * FeatureSpec)) :
  NoDup (map fst entries) ->
  forall acc, (forall f, In f (map fst entries) -> dict_get f acc = None) ->
    dict_keys (fold_left (fun feature_values entry =>
                            dict_set (fst entry) (widget_value w entry) feature_values)
                         entries acc)
    = dict_keys acc ++ map fst entries.
Proof.
  induction entries as [|e entries IH]; intros ND acc Z.
  - cbn. now rewrite app_nil_r.
  - cbn [fold_left map]. inversion ND as [|? ? Ne ND']; subst.
    rewrite IH.
    + rewrite dict_keys_set_new by (apply Z; now left).
      now rewrite <- app_assoc.
    + exact ND'.
    + intros f I. rewrite dict_get_set.
      destruct (String.eqb_spec f (fst e)) as [->|]; [contradiction|].
      apply Z. now right.
Qed.

(** The form over entries that are all in the dictionary. *)
Lemma form_renders_entries_aux (w : World) (ranges : dict FeatureSpec)
    (entries : list (string * FeatureSpec)) (pg : page) :
  (forall e, In e entries -> dict_get (fst e) ranges = Some (snd e)) ->
  form w (map fst entries) ranges pg
    = (Done (form_values w entries), pg ++ map widget_of entries) /\
  (forall e, In e entries ->
     dict_get (fst e) (form_values w entries) = Some (widget_value w e)).
Proof.
  intros H. split.
  - unfold form, form_values. apply form_loop_entries. exact H.
  - intros e I. unfold form_values. apply (form_values_lookup w ranges); assumption.
Qed.

(** X1: over distinct names that all have an entry, the form renders one
    widget per name in order, completes, and returns a dictionary whose keys
    are the names in order and whose value under each name is the value of
    its widget: a float from a slider for a numerical feature, an int from a
    radio button for a categorical one. *)
Theorem form_renders_entries (w : World) (ranges : dict FeatureSpec)
    (entries : list (string * FeatureSpec)) (pg : page) :
  NoDup (map fst entries) ->
  (forall e, In e entries -> dict_get (fst e) ranges = Some (snd e)) ->
  form w (map fst entries) ranges pg
    = (Done (form_values w entries), pg ++ map widget_of entries) /\
  dict_keys (form_values w entries) = map fst entries /\
  (forall e, In e entries ->
     dict_get (fst e) (form_values w entries) = Some (widget_value w e)).
Proof.
  intros ND H. split; [|split].
  - unfold form, form_values. apply form_loop_entries. exact H.
  - unfold form_values.
    rewrite form_values_keys; [reflexivity | exact ND | reflexivity].
  - intros e I. unfold form_values. apply (form_values_lookup w ranges); assumption.
Qed.

(** The form over the registry itself. *)
Lemma form_renders_entries_witness :
  form (stub_world (Returns (stub_model None)) true failing_explainer)
       (map fst feature_ranges) feature_ranges []
    = (Done (form_values (stub_world (Returns (stub_model None)) true failing_explainer)
                         feature_ranges),
       [] ++ map widget_of feature_ranges) /\
  dict_keys (form_values (stub_world (Returns (stub_model None)) true failing_explainer)
                         feature_ranges)
  = map fst feature_ranges /\
  (forall e, In e feature_ranges ->
     dict_get (fst e)
       (form_values (stub_world (Returns (stub_model None)) true failing_explainer)
                    feature_ranges)
     = Some (widget_value (stub_world (Returns (stub_model None)) true failing_explainer) e)).
Proof.
  apply (form_renders_entries
           (stub_world (Returns (stub_model None)) true failing_explainer)
           feature_ranges feature_ranges []).
  - repeat (constructor; [cbn; intuition discriminate|]). constructor.
  - intros e I. cbn in I.
    repeat (destruct I as [<-|I]; [reflexivity|]). destruct I.
Defined.

(** The loop of the table over entries that are all in the dictionary. *)
Lemma table_loop_entries (ranges : dict FeatureSpec)
    (entries : list (string * FeatureSpec)) :
  (forall e, In e entries -> dict_get (fst e) ranges = Some (snd e)) ->
  forall (acc : list (string * string * string)) (pg : page),
    for_fold (map fst entries) acc
      (fun feature_description feature =>
         properties <- dict_getitem feature ranges ;;
         ret (feature_description ++
              [(feature, description_of properties,
                 if (unit_of properties =? "")%string then "无"
                 else unit_of properties)])) pg
    = (Done (acc ++ map table_row entries), pg).
Proof.
  induction entries as [|[f p] entries IH]; intros H acc pg.
  - cbn. now rewrite app_nil_r.
  - cbn [map fst for_fold].
    pose proof (H (f, p) (or_introl eq_refl)) as G. cbn in G.
    unfold bind at 1. unfold bind at 1. unfold dict_getitem. rewrite G.
    replace (acc ++ table_row (f, p) :: map table_row entries)
      with ((acc ++ [table_row (f, p)]) ++ map table_row entries)
      by (now rewrite <- app_assoc).
    exact (IH (fun e I => H e (or_intror I)) _ _).
Qed.

Lemma feature_table_entries (ranges : dict FeatureSpec)
    (entries : list (string * FeatureSpec)) (pg : page) :
  (forall e, In e entries -> dict_get (fst e) ranges = Some (snd e)) ->
  feature_table (map fst entries) ranges pg
    = (Done tt, pg ++ [FeatureTable (map table_row entries)]).
Proof.
  intros H. unfold feature_table. unfold bind at 1.
  rewrite (table_loop_entries ranges entries H). reflexivity.
Qed.

(** ** The reconciliation, warning by warning *)

Lemma filter_none {A : Type} (f : A -> bool) (l : list A) :
  (forall x, In x l -> f x = false) -> filter f l = [].
Proof.
  induction l as [|x l IH]; intros H; cbn; [reflexivity|].
  rewrite (H x (or_introl eq_refl)). apply IH. intros y I. apply H. now right.
Qed.

Lemma filter_all {A : Type} (f : A -> bool) (l : list A) :
  (forall x, In x l -> f x = true) -> filter f l = l.
Proof.
  induction l as [|x l IH]; intros H; cbn; [reflexivity|].
  rewrite (H x (or_introl eq_refl)). f_equal. apply IH.
  intros y I. apply H. now right.
Qed.

Lemma dict_mem_keys {V : Type} (f : string) (d : dict V) :
  dict_mem f d = true <-> In f (dict_keys d).
Proof. rewrite <- name_in_keys. apply name_in_In. Qed.

(** The warnings of the first loop: one per declared name without an entry,
    in the declared order. *)
Lemma reconcile_fold_page (registry : dict FeatureSpec) (names : list string) :
  forall (acc : dict FeatureSpec) (pg : page),
  exists ranges,
    for_fold names acc
      (fun feature_ranges_ordered feature =>
         match dict_get feature registry with
         | Some properties =>
             ret (dict_set feature properties feature_ranges_ordered)
         | None =>
             st (SidebarWarningUndefined feature) ;;
             ret feature_ranges_ordered
         end) pg
    = (Done ranges,
       pg ++ map SidebarWarningUndefined
               (filter (fun f => negb (dict_mem f registry)) names)).
Proof.
  induction names as [|n names IH]; intros acc pg.
  - exists acc. cbn. now rewrite app_nil_r.
  - cbn [for_fold filter]. unfold bind at 1. unfold dict_mem at 1.
    destruct (dict_get n registry) as [p|]; cbn [negb].
    + apply IH.
    + destruct (IH acc (pg ++ [SidebarWarningUndefined n])) as [ranges E].
      exists ranges. cbn [map]. rewrite <- app_assoc in E. exact E.
Qed.

(** What the reconciliation returns and renders when the model declares its
    names. *)
Lemma reconcile_exact (model : option Model) (registry : dict FeatureSpec)
    (names : list string) (pg : page) :
  declared_names model = Some names ->
  exists ranges,
    reconcile model registry pg
    = (Done (names, ranges),
       pg ++ map SidebarWarningUndefined
               (filter (fun f => negb (dict_mem f registry)) names)
          ++ map SidebarWarningUnused
               (filter (fun f => negb (name_in f names)) (dict_keys registry))) /\
    (forall f, dict_get f ranges =
               if name_in f names then dict_get f registry else None) /\
    (NoDup names ->
     dict_keys ranges = filter (fun f => dict_mem f registry) names).
Proof.
  intros D.
  destruct (reconcile_fold registry names [] pg) as (ranges & extra & E & L & K & _).
  destruct (reconcile_fold_page registry names [] pg) as (ranges' & E').
  rewrite E in E'. injection E' as <- Epg.
  exists ranges. split; [|split].
  - unfold reconcile. rewrite D. unfold bind at 1. rewrite E, Epg.
    unfold bind at 1. rewrite unused_loop. unfold ret.
    now rewrite <- app_assoc.
  - intros f. rewrite L. cbn [dict_get].
    destruct (name_in f names); cbn; [|reflexivity].
    unfold dict_mem. destruct (dict_get f registry); reflexivity.
  - intros ND. apply K; [exact ND | reflexivity].
Qed.

(** X2: when the model declares its feature names, the reconciliation
    completes with the declared list as the order; it warns once for each
    declared name that has no registry entry, in declared order, then once for
    each registry feature the model does not declare, in registry order; the
    dictionary it returns maps exactly the declared names that have an entry
    to their registry entries, and lists them in the declared order when the
    declared names are distinct. *)
Theorem reconcile_ordered_registry (model : option Model)
    (registry : dict FeatureSpec) (names : list string) (pg : page) :
  declared_names model = Some names ->
  exists ranges,
    reconcile model registry pg
    = (Done (names, ranges),
       pg ++ map SidebarWarningUndefined
               (filter (fun f => negb (dict_mem f registry)) names)
          ++ map SidebarWarningUnused
               (filter (fun f => negb (name_in f names)) (dict_keys registry))) /\
    (forall f, dict_get f ranges =
               if name_in f names then dict_get f registry else None) /\
    (NoDup names ->
     dict_keys ranges = filter (fun f => dict_mem f registry) names).
Proof. intros D. apply reconcile_exact. exact D. Qed.

(** A model that declares "Age", "BMI" and "CEA" against the registry. *)
Lemma reconcile_ordered_registry_witness :
  exists ranges,
    reconcile (Some bmi_model) feature_ranges []
    = (Done (["Age"; "BMI"; "CEA"], ranges),
       [] ++ map SidebarWarningUndefined
               (filter (fun f => negb (dict_mem f feature_ranges))
                       ["Age"; "BMI"; "CEA"])
          ++ map SidebarWarningUnused
               (filter (fun f => negb (name_in f ["Age"; "BMI"; "CEA"]))
                       (dict_keys feature_ranges))) /\
    (forall f, dict_get f ranges =
               if name_in f ["Age"; "BMI"; "CEA"]
               then dict_get f feature_ranges else None) /\
    (NoDup ["Age"; "BMI"; "CEA"] ->
     dict_keys ranges
     = filter (fun f => dict_mem f feature_ranges) ["Age"; "BMI"; "CEA"]).
Proof.
  apply (reconcile_ordered_registry (Some bmi_model) feature_ranges
           ["Age"; "BMI"; "CEA"] []).
  reflexivity.
Defined.

(** X3: when the declared names are distinct and are the registry's names in
    some order, the reconciliation renders no warning and returns the
    registry re-ordered: the same entry under every name, the keys in the
    declared order. *)
Theorem reconcile_agreeing (model : option Model) (registry : dict FeatureSpec)
    (names : list string) (pg : page) :
  declared_names model = Some names ->
  NoDup names ->
  Permutation names (dict_keys registry) ->
  exists ranges,
    reconcile model registry pg = (Done (names, ranges), pg) /\
    dict_keys ranges = names /\
    (forall f, dict_get f ranges = dict_get f registry).
Proof.
  intros D ND P.
  destruct (reconcile_exact model registry names pg D) as (ranges & E & L & K).
  assert (Hin : forall f, In f names -> dict_mem f registry = true).
  { intros f I. apply dict_mem_keys. apply (Permutation_in _ P I). }
  exists ranges. split; [|split].
  - rewrite E. rewrite filter_none, filter_none; cbn.
    + now rewrite app_nil_r.
    + intros f I. rewrite (proj2 (name_in_In f names)); [reflexivity|].
      apply (Permutation_in _ (Permutation_sym P) I).
    + intros f I. now rewrite (Hin f I).
  - rewrite (K ND). apply filter_all. exact Hin.
  - intros f. rewrite L. destruct (name_in f names) eqn:N; [reflexivity|].
    destruct (dict_get f registry) as [p|] eqn:G; [|reflexivity].
    exfalso. assert (I : In f names).
    { apply (Permutation_in _ (Permutation_sym P)). apply dict_mem_keys.
      unfold dict_mem. now rewrite G. }
    apply name_in_In in I. congruence.
Qed.

(** A model trained on the seven features in [trained_order]. *)
Lemma reconcile_agreeing_witness :
  exists ranges,
    reconcile (Some (stub_model (Some trained_order))) feature_ranges []
      = (Done (trained_order, ranges), []) /\
    dict_keys ranges = trained_order /\
    (forall f, dict_get f ranges = dict_get f feature_ranges).
Proof.
  apply (reconcile_agreeing (Some (stub_model (Some trained_order)))
           feature_ranges trained_order []).
  - reflexivity.
  - repeat (constructor; [cbn; intuition discriminate|]). constructor.
  - unfold trained_order. cbn.
    apply Permutation_sym.
    apply (Permutation_trans (l' := "Age" :: ["Intraoperative Blood Loss"; "CEA"; "Albumin"; "TNM Stage"; "Max Tumor Diameter"; "Lymphovascular Invasion"])).
    { apply Permutation_sym.
      apply (Permutation_middle ["Intraoperative Blood Loss"; "CEA"; "Albumin"; "TNM Stage"]). }
    apply perm_skip.
    apply (Permutation_trans (l' := "TNM Stage" :: ["Intraoperative Blood Loss"; "CEA"; "Albumin"; "Max Tumor Diameter"; "Lymphovascular Invasion"])).
    { apply Permutation_sym.
      apply (Permutation_middle ["Intraoperative Blood Loss"; "CEA"; "Albumin"]). }
    apply perm_skip.
    apply (Permutation_trans (l' := "Max Tumor Diameter" :: ["Intraoperative Blood Loss"; "CEA"; "Albumin"; "Lymphovascular Invasion"])).
    { apply Permutation_sym.
      apply (Permutation_middle ["Intraoperative Blood Loss"; "CEA"; "Albumin"]). }
    apply perm_skip.
    apply (Permutation_trans (l' := "Albumin" :: ["Intraoperative Blood Loss"; "CEA"; "Lymphovascular Invasion"])).
    { apply Permutation_sym.
      apply (Permutation_middle ["Intraoperative Blood Loss"; "CEA"]). }
    apply perm_skip.
    apply (Permutation_trans (l' := "CEA" :: ["Intraoperative Blood Loss"; "Lymphovascular Invasion"])).
    { apply Permutation_sym.
      apply (Permutation_middle ["Intraoperative Blood Loss"]). }
    apply perm_skip.
    apply perm_swap.
Defined.

(** ** The shapes of the result column *)

(** X4: building the model input never raises; it completes, rendering
    nothing, exactly when every name the model declares has a value, and it
    stops with the missing-features error exactly when the model declares a
    name that has none. *)
Theorem build_vector_cases (m : Model) (fv : dict pyval) (pg : page) :
  (forall e, fst (build_vector m fv pg) <> Raised e) /\
  ((exists df, build_vector m fv pg = (Done df, pg)) <->
   (forall names, feature_names_in_ m = Some names ->
      forall f, In f names -> dict_mem f fv = true)) /\
  ((exists missing,
      build_vector m fv pg = (Stopped, pg ++ [MissingFeaturesError missing])) <->
   (exists names f,
      feature_names_in_ m = Some names /\ In f names /\ dict_mem f fv = false)).
Proof.
  assert (Stop : forall names f,
            feature_names_in_ m = Some names -> In f names -> dict_mem f fv = false ->
            exists missing,
              build_vector m fv pg = (Stopped, pg ++ [MissingFeaturesError missing])).
  { intros names f N I M. unfold build_vector. rewrite N.
    pose proof (missing_features_In names (DataFrame_of_row fv) f I M) as IM.
    destruct (filter _ names) as [|g l]; [destruct IM|].
    exists (g :: l). reflexivity. }
  split; [|split].
  - intros e. destruct (build_vector_outcome m fv pg) as [[df B]|[ms B]];
      rewrite B; discriminate.
  - split.
    + intros [df B] names N f I.
      destruct (dict_mem f fv) eqn:M; [reflexivity|].
      destruct (Stop names f N I M) as [ms S]. rewrite S in B. discriminate.
    + apply build_vector_present.
  - split.
    + intros [ms S]. destruct (feature_names_in_ m) as [names|] eqn:N.
      * destruct (filter (fun f => negb (dict_mem f fv)) names) as [|f l] eqn:F.
        -- assert (P : forall f, In f names -> dict_mem f fv = true).
           { intros f I. destruct (dict_mem f fv) eqn:M; [reflexivity|].
             assert (In f (filter (fun f => negb (dict_mem f fv)) names))
               by (apply filter_In; now rewrite M).
             rewrite F in H. destruct H. }
           destruct (build_vector_present m fv pg) as [df B].
           { intros names' N' f I. rewrite N in N'. injection N' as <-. now apply P. }
           rewrite B in S. discriminate.
        -- assert (If : In f (filter (fun f => negb (dict_mem f fv)) names))
             by (rewrite F; now left).
           apply filter_In in If. destruct If as [I M].
           exists names, f. repeat split; [exact I|].
           now destruct (dict_mem f fv).
      * rewrite (build_vector_unnamed m fv pg N) in S. discriminate.
    + intros (names & f & N & I & M). exact (Stop names f N I M).
Qed.

(** The outer [try] body either raises before it renders anything or
    completes after the cards. *)
Lemma predict_and_explain_cases (w : World) (m : Model) (df : DataFrame) (pg : page) :
  (exists e, predict_and_explain w m df pg = (Raised e, pg)) \/
  (exists p1 tail,
     predict_and_explain w m df pg
     = (Done tt,
        pg ++ [RiskCard (risk_category (p1 * 100));
               SurvivalCard (100 - p1 * 100);
               DeathCard (p1 * 100);
               Gauge (p1 * 100);
               ExplanationHeader;
               PredictionText (p1 * 100)] ++ tail) /\
     ((exists e, tail = [ShapError e; ShapWarning]) \/
      (exists selected, tail = [WaterfallImage selected; WaterfallCaption]))).
Proof.
  destruct (predict m (df_values df)) as [labels|e] eqn:P;
    [|left; exists e; unfold predict_and_explain, bind, call; now rewrite P].
  destruct (getitem labels 0) as [lbl|e] eqn:L;
    [|left; exists e; unfold predict_and_explain, bind, call; now rewrite P, L].
  destruct (predict_proba m (df_values df)) as [probabilities|e] eqn:Q;
    [|left; exists e; unfold predict_and_explain, bind, call; now rewrite P, L, Q].
  destruct (getitem probabilities 0) as [row|e] eqn:R;
    [|left; exists e; unfold predict_and_explain, bind, call; now rewrite P, L, Q, R].
  destruct (getitem row 1) as [p1|e] eqn:I;
    [|left; exists e; unfold predict_and_explain, bind, call; now rewrite P, L, Q, R, I].
  right. exists p1.
  rewrite (predict_and_explain_answered w m df labels lbl probabilities row p1
             pg P L Q R I).
  unfold try_except.
  destruct (shap_section_outcome w m df) as [[e S]|[sel S]]; rewrite S.
  - exists [ShapError e; ShapWarning]. split; [|left; now exists e].
    unfold bind, st. repeat rewrite <- app_assoc. reflexivity.
  - exists [WaterfallImage sel; WaterfallCaption]. split; [|right; now exists sel].
    repeat rewrite <- app_assoc. reflexivity.
Qed.

(** The result column, case by case. *)
Lemma predict_section_cases (w : World) (m : Model) (fv : dict pyval) (pg : page) :
  (exists missing,
     predict_section w m fv pg
     = (Stopped, pg ++ [ResultHeader; MissingFeaturesError missing])) \/
  (exists e,
     predict_section w m fv pg
     = (Done tt, pg ++ [ResultHeader; PredictionError e; PredictionWarning])) \/
  (exists p1 tail,
     predict_section w m fv pg
     = (Done tt,
        pg ++ [ResultHeader;
               RiskCard (risk_category (p1 * 100));
               SurvivalCard (100 - p1 * 100);
               DeathCard (p1 * 100);
               Gauge (p1 * 100);
               ExplanationHeader;
               PredictionText (p1 * 100)] ++ tail) /\
     ((exists e, tail = [ShapError e; ShapWarning]) \/
      (exists selected, tail = [WaterfallImage selected; WaterfallCaption]))).
Proof.
  destruct (build_vector_outcome m fv (pg ++ [ResultHeader])) as [[df B]|[ms B]].
  - rewrite (predict_section_built w m fv pg df B). unfold try_except.
    destruct (predict_and_explain_cases w m df (pg ++ [ResultHeader]))
      as [[e E]|(p1 & tail & E & T)]; rewrite E.
    + right. left. exists e. unfold bind, st.
      repeat rewrite <- app_assoc. reflexivity.
    + right. right. exists p1, tail. split; [|exact T].
      repeat rewrite <- app_assoc. reflexivity.
  - left. exists ms. unfold predict_section. unfold bind at 1, st at 1.
    unfold bind at 1. rewrite B. now rewrite <- app_assoc.
Qed.

(** With every declared name present, the result column completes. *)
Lemma predict_section_present (w : World) (m : Model) (fv : dict pyval) (pg : page) :
  (forall names, feature_names_in_ m = Some names ->
     forall f, In f names -> dict_mem f fv = true) ->
  exists rest, predict_section w m fv pg = (Done tt, pg ++ ResultHeader :: rest).
Proof.
  intros H.
  destruct (build_vector_present m fv (pg ++ [ResultHeader]) H) as [df B].
  rewrite (predict_section_built w m fv pg df B). unfold try_except.
  destruct (predict_and_explain_cases w m df (pg ++ [ResultHeader]))
    as [[e E]|(p1 & tail & E & T)]; rewrite E.
  - exists [PredictionError e; PredictionWarning]. unfold bind, st.
    repeat rewrite <- app_assoc. reflexivity.
  - eexists. repeat rewrite <- app_assoc. reflexivity.
Qed.

(** X5: whatever the model, the attribution engine and the raw input, the
    result column ends in one of four ways and never in an exception: it
    stops after the missing-features error; or it completes with the
    prediction error and its advice and no card; or it completes with the
    six elements of the prediction followed either by the attribution error
    and its warning or by the waterfall plot and its caption. *)
Theorem predict_section_shapes (w : World) (m : Model) (fv : dict pyval) (pg : page) :
  (exists missing,
     predict_section w m fv pg
     = (Stopped, pg ++ [ResultHeader; MissingFeaturesError missing])) \/
  (exists e,
     predict_section w m fv pg
     = (Done tt, pg ++ [ResultHeader; PredictionError e; PredictionWarning])) \/
  (exists p1 tail,
     predict_section w m fv pg
     = (Done tt,
        pg ++ [ResultHeader;
               RiskCard (risk_category (p1 * 100));
               SurvivalCard (100 - p1 * 100);
               DeathCard (p1 * 100);
               Gauge (p1 * 100);
               ExplanationHeader;
               PredictionText (p1 * 100)] ++ tail) /\
     ((exists e, tail = [ShapError e; ShapWarning]) \/
      (exists selected, tail = [WaterfallImage selected; WaterfallCaption]))).
Proof. apply predict_section_cases. Qed.

(** X6: an answer of the wrong shape is a prediction error: when [predict]
    returns no label, or [predict_proba] returns no row, or a row with fewer
    than two probabilities, the [IndexError] of the indexing is caught by the
    outer handler and no card is rendered. *)
Theorem malformed_answer_caught (w : World) (m : Model) (fv : dict pyval)
    (pg : page) (df : DataFrame) (labels : list Z)
    (probabilities : list (list float)) :
  build_vector m fv (pg ++ [ResultHeader]) = (Done df, pg ++ [ResultHeader]) ->
  predict m (df_values df) = Returns labels ->
  predict_proba m (df_values df) = Returns probabilities ->
  (labels = [] \/ probabilities = [] \/
   exists row rows, probabilities = row :: rows /\ List.length row < 2) ->
  predict_section w m fv pg
  = (Done tt, pg ++ [ResultHeader; PredictionError IndexError; PredictionWarning]).
Proof.
  intros B P Q H. rewrite (predict_section_built w m fv pg df B).
  unfold try_except, predict_and_explain.
  unfold bind at 1, call at 1. rewrite P.
  destruct labels as [|lbl labels].
  - unfold bind, call, st. cbn. repeat rewrite <- app_assoc. reflexivity.
  - destruct H as [H|[->|(row & rows & -> & Hr)]]; [discriminate| |].
    + unfold bind at 1, call at 1. cbn [getitem nth_error].
      unfold bind at 1, call at 1. rewrite Q.
      unfold bind, call, st. cbn. repeat rewrite <- app_assoc. reflexivity.
    + unfold bind at 1, call at 1. cbn [getitem nth_error].
      unfold bind at 1, call at 1. rewrite Q.
      unfold bind at 1, call at 1. cbn [getitem nth_error].
      assert (G : getitem row 1 = Raises IndexError).
      { unfold getitem. destruct row as [|a [|b row]]; cbn in *; [reflexivity.. | lia]. }
      unfold bind at 1, call at 1. rewrite G.
      unfold bind, st. repeat rewrite <- app_assoc. reflexivity.
Qed.

(** The scenario's patient against a classifier that knows one class. *)
Lemma malformed_answer_caught_witness :
  predict_section
    (stub_world (Returns single_class_model) true (stub_explainer flat_values))
    single_class_model scenario_input []
  = (Done tt, [] ++ [ResultHeader; PredictionError IndexError; PredictionWarning]).
Proof.
  apply (malformed_answer_caught
           (stub_world (Returns single_class_model) true (stub_explainer flat_values))
           single_class_model scenario_input [] scenario_input
           [0%Z] [[1%float]]).
  - reflexivity.
  - reflexivity.
  - reflexivity.
  - right. right. exists [1%float], []. split; [reflexivity | cbn; lia].
Defined.

(** ** A whole run *)

Lemma entries_of_In (registry : dict FeatureSpec) (names : list string)
    (e : string * FeatureSpec) :
  In e (entries_of registry names) <->
  In (fst e) names /\ dict_get (fst e) registry = Some (snd e).
Proof.
  unfold entries_of. rewrite in_flat_map. split.
  - intros (f & I & H). destruct (dict_get f registry) as [p|] eqn:G; [|destruct H].
    destruct H as [<-|[]]. cbn. auto.
  - intros [I G]. exists (fst e). split; [exact I|]. rewrite G.
    left. now destruct e.
Qed.

Lemma entries_of_names (registry : dict FeatureSpec) (names : list string) :
  (forall f, In f names -> dict_mem f registry = true) ->
  map fst (entries_of registry names) = names.
Proof.
  unfold entries_of. induction names as [|n names IH]; intros H; [reflexivity|].
  cbn [flat_map]. rewrite map_app, IH by (intros f I; apply H; now right).
  destruct (proj1 (dict_mem_get n registry) (H n (or_introl eq_refl))) as [p G].
  now rewrite G.
Qed.

(** A run in which every name of the feature order has a registry entry:
    the preamble, then the result column or the guide. *)
Lemma script_defined (w : World) :
  (forall f, In f (required_order (loaded (joblib_load w)) feature_ranges) ->
             dict_mem f feature_ranges = true) ->
  script w []
  = match form_submit_button w, loaded (joblib_load w) with
    | true, Some m =>
        predict_section w m
          (form_values w
             (entries_of feature_ranges
                (required_order (loaded (joblib_load w)) feature_ranges)))
    | _, _ => st ModelGuide
    end (preamble w).
Proof.
  intros H. unfold script, preamble.
  set (model := loaded (joblib_load w)) in *.
  set (order := required_order model feature_ranges) in *.
  set (entries := entries_of feature_ranges order).
  assert (Names : map fst entries = order) by (apply entries_of_names; exact H).
  assert (LM : load_model w []
               = (Done model, match joblib_load w with
                              | Returns _ => []
                              | Raises e => [ModelLoadError e]
                              end)).
  { unfold load_model, try_except, bind, call, ret, st, model.
    destruct (joblib_load w); reflexivity. }
  unfold bind at 1. rewrite LM.
  set (pg0 := match joblib_load w with
              | Returns _ => []
              | Raises e => [ModelLoadError e]
              end).
  assert (R : exists ranges,
    reconcile model feature_ranges pg0
    = (Done (order, ranges),
       pg0 ++ match declared_names model with
              | Some names =>
                  map SidebarWarningUnused
                    (filter (fun f => negb (name_in f names)) (dict_keys feature_ranges))
              | None => []
              end) /\
    (forall e, In e entries -> dict_get (fst e) ranges = Some (snd e))).
  { subst order entries. unfold required_order in *.
    destruct (declared_names model) as [names|] eqn:D.
    - destruct (reconcile_exact model feature_ranges names pg0 D) as (ranges & E & L & _).
      exists ranges. split.
      + rewrite E. rewrite (filter_none _ names); [reflexivity|].
        intros f I. now rewrite (H f I).
      + intros e I. apply entries_of_In in I. destruct I as [I G].
        rewrite L, (proj2 (name_in_In (fst e) names) I). exact G.
    - exists feature_ranges. split.
      + rewrite (reconcile_undeclared model feature_ranges pg0 D).
        now rewrite app_nil_r.
      + intros e I. apply entries_of_In in I. tauto. }
  destruct R as (ranges & E & G).
  unfold bind at 1. rewrite E. cbn [fst snd].
  unfold bind at 1. rewrite <- Names.
  rewrite (proj1 (form_renders_entries_aux w ranges entries _ G)).
  unfold bind at 1. rewrite (feature_table_entries ranges entries _ G).
  repeat rewrite <- app_assoc. reflexivity.
Qed.

Lemma forallb_false_witness {A : Type} (f : A -> bool) (l : list A) :
  forallb f l = false -> exists x, In x l /\ f x = false.
Proof.
  induction l as [|x l IH]; cbn; [discriminate|].
  destruct (f x) eqn:F; cbn.
  - intros H. destruct (IH H) as (y & I & Fy). exists y. auto.
  - intros _. exists x. auto.
Qed.

(** Names the model declares are all the order has to answer for: without
    declared names the order is the registry's own keys. *)
Lemma defined_of_declared (model : option Model) (registry : dict FeatureSpec) :
  (forall names, declared_names model = Some names ->
     forall f, In f names -> dict_mem f registry = true) ->
  forall f, In f (required_order model registry) -> dict_mem f registry = true.
Proof.
  intros H f. unfold required_order.
  destruct (declared_names model) as [names|].
  - apply (H names eq_refl).
  - apply dict_mem_keys.
Qed.

(** The values of the form cover every name of the order. *)
Lemma form_values_cover (w : World) (registry : dict FeatureSpec)
    (names : list string) (f : string) :
  In f names -> dict_mem f registry = true ->
  dict_mem f (form_values w (entries_of registry names)) = true.
Proof.
  intros I M. destruct (proj1 (dict_mem_get f registry) M) as [p G].
  assert (Ie : In (f, p) (entries_of registry names))
    by (apply entries_of_In; cbn; auto).
  pose proof (proj2 (form_renders_entries_aux w registry (entries_of registry names) []
                       (fun e Ie' => proj2 (proj1 (entries_of_In registry names e) Ie')))
                (f, p) Ie) as L.
  cbn [fst] in L. unfold dict_mem. now rewrite L.
Qed.

(** How a run ends: in [KeyError] on a declared name without a registry
    entry, or completed after the preamble. *)
Lemma script_outcome (w : World) :
  (exists m names g pg,
     joblib_load w = Returns m /\ feature_names_in_ m = Some names /\
     In g names /\ dict_mem g feature_ranges = false /\
     script w [] = (Raised (KeyError g), pg)) \/
  ((forall f, In f (required_order (loaded (joblib_load w)) feature_ranges) ->
              dict_mem f feature_ranges = true) /\
   exists rest, script w [] = (Done tt, preamble w ++ rest)).
Proof.
  destruct (forallb (fun f => dict_mem f feature_ranges)
              (required_order (loaded (joblib_load w)) feature_ranges)) eqn:A.
  - right. pose proof (proj1 (forallb_forall _ _) A) as H. split; [exact H|].
    rewrite (script_defined w H).
    destruct (form_submit_button w);
      [|exists [ModelGuide]; reflexivity].
    destruct (loaded (joblib_load w)) as [m|] eqn:Lm;
      [|exists [ModelGuide]; reflexivity].
    destruct (predict_section_present w m
                (form_values w (entries_of feature_ranges
                                  (required_order (Some m) feature_ranges)))
                (preamble w)) as [rest S].
    { intros names N f I. apply form_values_cover.
      - unfold required_order. cbn. now rewrite N.
      - apply H. unfold required_order. cbn. now rewrite N. }
    exists (ResultHeader :: rest). exact S.
  - left. destruct (forallb_false_witness _ _ A) as (f & I & M).
    unfold required_order in I.
    destruct (declared_names (loaded (joblib_load w))) as [names|] eqn:D.
    + destruct (joblib_load w) as [m|e] eqn:J; cbn in D; [|discriminate].
      destruct (script_undefined_feature w m names f J D I M) as (g & pg & S & Ig & Mg & _).
      exists m, names, g, pg. auto.
    + apply dict_mem_keys in I. congruence.
Qed.

(** X7: when a model is loaded, the names it declares are distinct and each
    has a registry entry, and the button is pressed, the run is the preamble
    followed by the result column on the values of the form: one value per
    name of the feature order, read from the widget of that name. *)
Theorem script_prediction_run (w : World) (m : Model) :
  joblib_load w = Returns m ->
  form_submit_button w = true ->
  (forall names, feature_names_in_ m = Some names -> NoDup names) ->
  (forall names, feature_names_in_ m = Some names ->
     forall f, In f names -> dict_mem f feature_ranges = true) ->
  script w []
  = predict_section w m
      (form_values w (entries_of feature_ranges
                        (required_order (Some m) feature_ranges)))
      (preamble w).
Proof.
  intros J B _ H.
  rewrite (script_defined w).
  - rewrite J, B. reflexivity.
  - rewrite J. apply defined_of_declared. exact H.
Qed.

Lemma script_prediction_run_witness :
  script (stub_world (Returns (stub_model (Some trained_order))) true
            (stub_explainer per_class_values)) []
  = predict_section
      (stub_world (Returns (stub_model (Some trained_order))) true
         (stub_explainer per_class_values))
      (stub_model (Some trained_order))
      (form_values
         (stub_world (Returns (stub_model (Some trained_order))) true
            (stub_explainer per_class_values))
         (entries_of feature_ranges
            (required_order (Some (stub_model (Some trained_order))) feature_ranges)))
      (preamble (stub_world (Returns (stub_model (Some trained_order))) true
                   (stub_explainer per_class_values))).
Proof.
  apply (script_prediction_run
           (stub_world (Returns (stub_model (Some trained_order))) true
              (stub_explainer per_class_values))
           (stub_model (Some trained_order))).
  - reflexivity.
  - reflexivity.
  - intros names [= <-].
    repeat (constructor; [cbn; intuition discriminate|]). constructor.
  - intros names [= <-] f I. cbn in I.
    repeat (destruct I as [<-|I]; [reflexivity|]). destruct I.
Defined.

(** X8: when the button is not pressed, or no model could be loaded, the
    run renders the preamble and the guide and nothing of a prediction,
    whatever the model would answer (given that the names of the feature
    order are distinct and each has a registry entry, as they are when no
    model is loaded). *)
Theorem script_without_prediction (w : World) :
  form_submit_button w = false \/ loaded (joblib_load w) = None ->
  NoDup (required_order (loaded (joblib_load w)) feature_ranges) ->
  (forall f, In f (required_order (loaded (joblib_load w)) feature_ranges) ->
             dict_mem f feature_ranges = true) ->
  script w [] = (Done tt, preamble w ++ [ModelGuide]).
Proof.
  intros C _ H. rewrite (script_defined w H).
  destruct C as [B|L].
  - rewrite B. reflexivity.
  - rewrite L. destruct (form_submit_button w); reflexivity.
Qed.

(** The button pressed with no model file. *)
Lemma script_without_prediction_witness :
  script (stub_world (Raises (Error "No such file or directory: 'rf.pkl'")) true
            failing_explainer) []
  = (Done tt,
     preamble (stub_world (Raises (Error "No such file or directory: 'rf.pkl'")) true
                 failing_explainer) ++ [ModelGuide]).
Proof.
  apply (script_without_prediction
           (stub_world (Raises (Error "No such file or directory: 'rf.pkl'")) true
              failing_explainer)).
  - right. reflexivity.
  - repeat (constructor; [cbn; intuition discriminate|]). constructor.
  - intros f I. cbn in I.
    repeat (destruct I as [<-|I]; [reflexivity|]). destruct I.
Defined.

(** X9: no run stops: the values of the form cover every name the model
    declares, so the missing-features error of the result column is never
    reached from the form. *)
Theorem script_never_stops (w : World) : fst (script w []) <> Stopped.
Proof.
  destruct (script_outcome w) as [(m & names & g & pg & _ & _ & _ & _ & S)|[_ [rest S]]];
    rewrite S; discriminate.
Qed.

(** X10: with distinct declared names, a run ends in an exception exactly
    when the loaded model declares a name that has no registry entry, and
    the exception is then the [KeyError] of such a name. *)
Theorem script_raises_iff (w : World) (e : Exception) :
  (forall names, declared_names (loaded (joblib_load w)) = Some names -> NoDup names) ->
  (fst (script w []) = Raised e ->
   exists m names g,
     joblib_load w = Returns m /\ feature_names_in_ m = Some names /\
     In g names /\ dict_mem g feature_ranges = false /\ e = KeyError g) /\
  ((exists m names f,
      joblib_load w = Returns m /\ feature_names_in_ m = Some names /\
      In f names /\ dict_mem f feature_ranges = false) ->
   exists g, fst (script w []) = Raised (KeyError g)).
Proof.
  intros _. split.
  - intros R.
    destruct (script_outcome w) as [(m & names & g & pg & J & N & I & M & S)|[_ [rest S]]];
      rewrite S in R; cbn in R; [|discriminate].
    injection R as <-. exists m, names, g. auto.
  - intros (m & names & f & J & N & I & M).
    destruct (script_undefined_feature w m names f J N I M) as (g & pg & S & _).
    exists g. now rewrite S.
Qed.

Lemma bmi_names_distinct : NoDup ["Age"; "BMI"; "CEA"].
Proof. repeat (constructor; [cbn; intuition discriminate|]). constructor. Qed.

(** A name of the declared list without a registry entry. *)
Lemma script_raises_iff_witness :
  exists g,
    fst (script (stub_world (Returns bmi_model) false failing_explainer) [])
    = Raised (KeyError g).
Proof.
  refine (proj2 (script_raises_iff
                   (stub_world (Returns bmi_model) false failing_explainer)
                   IndexError _) _).
  - intros names [= <-]. exact bmi_names_distinct.
  - exists bmi_model, ["Age"; "BMI"; "CEA"], "BMI".
    repeat split. right. now left.
Defined.

(** ** The form at a name without an entry *)

Lemma for_fold_app {X S : Type} (body : S -> X -> Script S) (l1 l2 : list X) :
  forall (acc : S) (pg : page),
    for_fold (l1 ++ l2) acc body pg
    = match for_fold l1 acc body pg with
      | (Done a, pg') => for_fold l2 a body pg'
      | (Raised e, pg') => (Raised e, pg')
      | (Stopped, pg') => (Stopped, pg')
      end.
Proof.
  induction l1 as [|x l1 IH]; intros acc pg; [reflexivity|].
  cbn [app for_fold]. unfold bind.
  destruct (body acc x pg) as [[a|e|] pg']; [apply IH | reflexivity..].
Qed.

(** X11: the form raises [KeyError] at the first name of the order that has
    no entry in the dictionary it reads: the widgets of the (distinct) names
    before it are rendered, nothing after, and no value is returned. *)
Theorem form_first_missing_entry (w : World) (ranges : dict FeatureSpec)
    (entries : list (string * FeatureSpec)) (g : string) (later : list string)
    (pg : page) :
  NoDup (map fst entries) ->
  (forall e, In e entries -> dict_get (fst e) ranges = Some (snd e)) ->
  dict_get g ranges = None ->
  form w (map fst entries ++ g :: later) ranges pg
  = (Raised (KeyError g), pg ++ map widget_of entries).
Proof.
  intros _ H G. unfold form. rewrite for_fold_app.
  rewrite (form_loop_entries w ranges entries H).
  cbn [for_fold]. unfold bind at 1. unfold bind at 1.
  unfold dict_getitem. rewrite G. reflexivity.
Qed.

(** The order "Age", "BMI", "CEA" against the registry. *)
Lemma form_first_missing_entry_witness :
  form (stub_world (Returns bmi_model) true failing_explainer)
       (map fst [("Age", numerical 25 90 76 "患者年龄" "岁")] ++ "BMI" :: ["CEA"])
       feature_ranges []
  = (Raised (KeyError "BMI"),
     [] ++ map widget_of [("Age", numerical 25 90 76 "患者年龄" "岁")]).
Proof.
  apply (form_first_missing_entry
           (stub_world (Returns bmi_model) true failing_explainer)
           feature_ranges [("Age", numerical 25 90 76 "患者年龄" "岁")]
           "BMI" ["CEA"] []).
  - repeat (constructor; [cbn; intuition discriminate|]). constructor.
  - intros e [<-|[]]. reflexivity.
  - reflexivity.
Defined.

(** X12: over names that all have an entry, the table of features
    completes with one row per name, in the order of the names (the order
    of the form's widgets): the name, its description and its unit, an
    empty unit shown as "无". *)
Theorem feature_table_rows (ranges : dict FeatureSpec)
    (entries : list (string * FeatureSpec)) (pg : page) :
  (forall e, In e entries -> dict_get (fst e) ranges = Some (snd e)) ->
  feature_table (map fst entries) ranges pg
    = (Done tt, pg ++ [FeatureTable (map table_row entries)]) /\
  map (fun row => fst (fst row)) (map table_row entries) = map fst entries /\
  (forall e, In e entries -> unit_of (snd e) = "" ->
     In (fst e, description_of (snd e), "无") (map table_row entries)).
Proof.
  intros H. split; [|split].
  - apply feature_table_entries. exact H.
  - rewrite map_map. reflexivity.
  - intros e I U. apply in_map_iff. exists e. split; [|exact I].
    unfold table_row. now rewrite U.
Qed.

Lemma feature_table_rows_witness :
  feature_table (map fst feature_ranges) feature_ranges []
    = (Done tt, [] ++ [FeatureTable (map table_row feature_ranges)]) /\
  map (fun row => fst (fst row)) (map table_row feature_ranges)
    = map fst feature_ranges /\
  (forall e, In e feature_ranges -> unit_of (snd e) = "" ->
     In (fst e, description_of (snd e), "无") (map table_row feature_ranges)).
Proof.
  apply (feature_table_rows feature_ranges feature_ranges []).
  intros e I. cbn in I.
  repeat (destruct I as [<-|I]; [reflexivity|]). destruct I.
Defined.

(** ** What the result column depends on *)

Lemma select_agree (names : list string) (df df' : DataFrame) :
  (forall f, In f names -> dict_get f df = dict_get f df') ->
  select names df = select names df'.
Proof.
  induction names as [|f names IH]; intros E; cbn; [reflexivity|].
  rewrite (E f (or_introl eq_refl)), IH; [reflexivity|].
  intros g I. apply E. now right.
Qed.

(** X13: when the model declares its feature names, the result column
    depends on the raw input only through the values under the declared
    names: two raw inputs that agree there (keys in another order, or other
    keys besides) give the same run, the same page and the same outcome. *)
Theorem predict_section_declared_only (w : World) (m : Model)
    (names : list string) (fv fv' : dict pyval) (pg : page) :
  feature_names_in_ m = Some names ->
  (forall f, In f names -> dict_get f fv = dict_get f fv') ->
  predict_section w m fv pg = predict_section w m fv' pg.
Proof.
  intros N E.
  assert (B : forall pg0, build_vector m fv pg0 = build_vector m fv' pg0).
  { intros pg0. unfold build_vector, DataFrame_of_row. rewrite N.
    assert (F : filter (fun f => negb (name_in f (columns fv))) names
                = filter (fun f => negb (name_in f (columns fv'))) names).
    { apply filter_ext_in. intros f I.
      change (columns fv) with (dict_keys fv).
      change (columns fv') with (dict_keys fv').
      rewrite !name_in_keys. unfold dict_mem. now rewrite (E f I). }
    rewrite F. now rewrite (select_agree names fv fv' E). }
  unfold predict_section. unfold bind at 1 3. unfold st at 1 3.
  unfold bind at 1 3. now rewrite B.
Qed.

(** The scenario's patient with the keys reversed and a key the model does
    not know. *)
Lemma predict_section_declared_only_witness :
  predict_section
    (stub_world (Returns (stub_model (Some trained_order))) true
       (stub_explainer per_class_values))
    (stub_model (Some trained_order)) scenario_input []
  = predict_section
      (stub_world (Returns (stub_model (Some trained_order))) true
         (stub_explainer per_class_values))
      (stub_model (Some trained_order))
      (("BMI", PyFloat 22.5) :: rev scenario_input) [].
Proof.
  apply (predict_section_declared_only
           (stub_world (Returns (stub_model (Some trained_order))) true
              (stub_explainer per_class_values))
           (stub_model (Some trained_order)) trained_order).
  - reflexivity.
  - intros f I. cbn in I.
    repeat (destruct I as [<-|I]; [reflexivity|]). destruct I.
Defined.

(** ** The tier grows with the probability *)

(** Below a positive float lies what is below anything at most as large. *)
Lemma SFltb_SFleb_trans (m : positive) (e : Z) (b c : spec_float) :
  SFltb (S754_finite false m e) b = true ->
  SFleb b c = true ->
  SFltb (S754_finite false m e) c = true.
Proof.
  unfold SFltb, SFleb.
  destruct b as [sb|sb| |sb mb eb]; cbn [SFcompare]; try discriminate.
  - destruct sb; [discriminate|]. intros _.
    destruct c as [sc|sc| |sc mc ec]; cbn [SFcompare]; try discriminate.
    destruct sc; [discriminate | reflexivity].
  - destruct sb; [discriminate|].
    destruct c as [sc|sc| |sc mc ec]; cbn [SFcompare]; try discriminate.
    + destruct sc; [discriminate | reflexivity].
    + destruct sc; [discriminate|].
      change (Pos.compare_cont Eq m mb) with (Pos.compare m mb).
      change (Pos.compare_cont Eq mb mc) with (Pos.compare mb mc).
      change (Pos.compare_cont Eq m mc) with (Pos.compare m mc).
      destruct (Z.compare_spec e eb) as [E1|E1|E1];
        destruct (Z.compare_spec eb ec) as [E2|E2|E2];
        destruct (Z.compare_spec e ec) as [E3|E3|E3];
        try discriminate; try lia; try reflexivity;
        destruct (Pos.compare_spec m mb) as [P1|P1|P1];
        destruct (Pos.compare_spec mb mc) as [P2|P2|P2];
        destruct (Pos.compare_spec m mc) as [P3|P3|P3];
        try discriminate; try lia; try reflexivity.
Qed.

Lemma SFcompare_refl (x : spec_float) :
  x <> S754_nan -> SFcompare x x = Some Eq.
Proof.
  destruct x as [s|s| |s m e]; cbn; intros N; try reflexivity.
  - now destruct s.
  - contradiction.
  - rewrite Z.compare_refl.
    change (Pos.compare_cont Eq m m) with (Pos.compare m m).
    rewrite Pos.compare_refl. now destruct s.
Qed.

(** What is at most something is a number, and so is that something. *)
Lemma leb_numbers (p q : float) :
  (p <=? q)%float = true ->
  PrimFloat.is_nan p = false /\ PrimFloat.is_nan q = false.
Proof.
  rewrite FloatAxioms.leb_spec. unfold SFleb, PrimFloat.is_nan.
  rewrite !FloatAxioms.eqb_spec. unfold SFeqb. intros H.
  assert (Prim2SF p <> S754_nan /\ Prim2SF q <> S754_nan) as [Np Nq].
  { split; intros E; rewrite E in H; cbn in H;
      [|destruct (Prim2SF p)]; discriminate. }
  now rewrite (SFcompare_refl _ Np), (SFcompare_refl _ Nq).
Qed.

Lemma above_30_upward (p q : float) :
  (30 <? p)%float = true -> (p <=? q)%float = true -> (30 <? q)%float = true.
Proof.
  rewrite !FloatAxioms.ltb_spec, FloatAxioms.leb_spec.
  change (Prim2SF 30) with (S754_finite false 8444249301319680 (-48)).
  apply SFltb_SFleb_trans.
Qed.

Lemma above_70_upward (p q : float) :
  (70 <? p)%float = true -> (p <=? q)%float = true -> (70 <? q)%float = true.
Proof.
  rewrite !FloatAxioms.ltb_spec, FloatAxioms.leb_spec.
  change (Prim2SF 70) with (S754_finite false 4925812092436480 (-46)).
  apply SFltb_SFleb_trans.
Qed.

(** X14: the tier never goes down when the death probability goes up: for
    floats p <= q the tier of p is at most the tier of q (low, moderate,
    high in increasing order). *)
Theorem risk_category_monotone (p q : float) :
  (p <=? q)%float = true ->
  risk_rank (risk_category p) <= risk_rank (risk_category q).
Proof.
  intros H. destruct (leb_numbers p q H) as [_ Nq].
  unfold risk_category.
  destruct (30 <? p)%float eqn:A.
  - rewrite (above_30_upward p q A H). cbn [andb].
    destruct (p <=? 70)%float eqn:B.
    + destruct (q <=? 70)%float eqn:C; [cbn; lia|].
      destruct (70 <? q)%float eqn:D; [cbn; lia|].
      apply (F64.not_ltb_leb 70 q) in D; [congruence | reflexivity | exact Nq].
    + destruct (70 <? p)%float eqn:C.
      * pose proof (above_70_upward p q C H) as D.
        rewrite (F64.ltb_not_leb 70 q D), D. cbn. lia.
      * cbn. lia.
  - cbn [andb]. destruct (70 <? p)%float eqn:C.
    + apply F64.above_70_above_30 in C. congruence.
    + cbn. lia.
Qed.

Lemma risk_category_monotone_witness :
  risk_rank (risk_category 25) <= risk_rank (risk_category 80).
Proof.
  apply (risk_category_monotone 25 80). reflexivity.
Defined.
